(** * pyne.simplesim.cards: surfaces, regions and cells

    A shallow embedding of the geometry core of [pyne/simplesim/cards.py]
    (Python 2): the card naming contract ([ICard]), the surface
    primitives ([ISurface], [IAxisSurface], [AxisCylinder], [AxisPlane],
    [Parallelepiped]), the region tree ([IRegion], [RegionLeaf],
    [RegionAnd], [RegionOr]) and the material cell ([Cell]).

    Modelling conventions.
    - Numbers are exact rationals ([Q]): Python integers exactly, floats
      up to rounding.  The comparisons [!=], [>], [<=] of the source are
      the decidable comparisons of [Q].
    - A method that mutates [self] is a computation [M S A]: it takes the
      object, and gives back the object as the call leaves it together
      with either the returned value or the exception raised.  The state
      survives a [Raise], so "nothing was written before the error" is a
      statement about the model and not a convention.
    - A constructor is an [outcome]: the new object or the exception.
    - A property setter of the source is a validation followed by one
      store.  The validation is the [_check] function, the setter proper
      is [assign] of it; a constructor runs the same validation on the
      value it was given before the object exists.
    - Surfaces live in a store ([heap]); a [RegionLeaf] holds the address
      of its surface, as the Python leaf holds a reference. *)

From Stdlib Require Import QArith Lqa Lia Bool List Ascii String.
From stdpp Require Import gmap.
Import ListNotations.

Open Scope string_scope.
Open Scope Q_scope.

(** ** Exceptions and the two monads *)

Inductive PyExcClass : Type :=
| StandardError
| ValueError
| TypeError
| NameError.

(** An exception: its Python class and the message template of the
    [raise] statement (format arguments are not expanded). *)
Record exn : Type := Exc { exc_class : PyExcClass; exc_msg : string }.

Inductive outcome (A : Type) : Type :=
| Return (a : A)
| Raise (e : exn).

Arguments Return {A} a.
Arguments Raise {A} e.

Definition obind {A B : Type} (o : outcome A) (k : A -> outcome B) : outcome B :=
  match o with
  | Return a => k a
  | Raise e => Raise e
  end.

Definition M (S A : Type) : Type := S -> outcome A * S.

Definition ret {S A : Type} (a : A) : M S A := fun s => (Return a, s).

Definition raise {S A : Type} (e : exn) : M S A := fun s => (Raise e, s).

Definition bind {S A B : Type} (m : M S A) (k : A -> M S B) : M S B :=
  fun s =>
    match m s with
    | (Return a, s') => k a s'
    | (Raise e, s') => (Raise e, s')
    end.

(** Read an attribute of [self]. *)
Definition gets {S A : Type} (f : S -> A) : M S A := fun s => (Return (f s), s).

(** Write an attribute of [self]. *)
Definition modify {S : Type} (f : S -> S) : M S unit := fun s => (Return tt, f s).

(** A property setter: validate, then store. *)
Definition assign {S V : Type} (check : S -> outcome V) (store : V -> S -> S) : M S unit :=
  fun self =>
    match check self with
    | Return v => (Return tt, store v self)
    | Raise e => (Raise e, self)
    end.

Declare Scope py_scope.
Delimit Scope py_scope with py.
Notation "x <- m ;; k" := (bind m (fun x => k))
  (at level 100, m at next level, right associativity) : py_scope.
Notation "m ;;; k" := (bind m (fun _ => k))
  (at level 100, right associativity) : py_scope.
Notation "x <~ o ;; k" := (obind o (fun x => k))
  (at level 100, o at next level, right associativity) : py_scope.
Open Scope py_scope.

(** ** Python values and comparisons *)

(** The dynamically typed arguments the source inspects with [type(..)]
    or compares; [PyObj n] is the class or module that the module-level
    name [n] is bound to. *)
Inductive pyval : Type :=
| PyNone
| PyBool (b : bool)
| PyNum (q : Q)
| PyStr (s : string)
| PyObj (name : string).

(** Truth value of an object in a condition. *)
Definition truthy (v : pyval) : bool :=
  match v with
  | PyNone => false
  | PyBool b => b
  | PyNum q => negb (Qeq_bool q 0)
  | PyStr s => negb (s =? "")%string
  | PyObj _ => true
  end.

(** [a != b], [a > b] and [a <= b] on numbers. *)
Definition py_ne (a b : Q) : bool := negb (Qeq_bool a b).

Definition py_gt (a b : Q) : bool :=
  match (a ?= b)%Q with
  | Gt => true
  | _ => false
  end.

Definition py_le (a b : Q) : bool := Qle_bool a b.

(** [str.lower()] on a byte string: the letters A..Z are mapped to a..z. *)
Definition lower_ascii (c : ascii) : ascii :=
  let n := nat_of_ascii c in
  if ((65 <=? n) && (n <=? 90))%nat then ascii_of_nat (n + 32) else c.

Fixpoint lower (s : string) : string :=
  match s with
  | EmptyString => EmptyString
  | String c s' => String (lower_ascii c) (lower s')
  end.

(** A 3-component vector; [vec0 v] is [vector[0]] and so on. *)
Record Vec3 : Type := mkVec3 { vec0 : Q; vec1 : Q; vec2 : Q }.

(** ** ICard *)

Record ICard : Type := mkICard { _unique : bool; _name : string }.

Module ICard.

(** The body of the [name] setter up to the store: a unique card is
    read-only, and a name cannot be empty.  [unique] is [self._unique]. *)
Definition name_check (unique : bool) (value : string) : outcome string :=
  if unique then
    Raise (Exc StandardError
      "This is a unique card, meaning only one card of this type can be found in a ``definition``. Accordingly, the name is read-only.")
  else if (value =? "")%string then
    Raise (Exc ValueError "The ``name`` property of the cell cannot be empty.")
  else Return value.

Definition set__name (value : string) (self : ICard) : ICard :=
  {| _unique := _unique self; _name := value |}.

(** [@property name]. *)
Definition name (self : ICard) : string := _name self.

(** [@name.setter]. *)
Definition name_setter (value : string) : M ICard unit :=
  assign (fun self => name_check (_unique self) value) set__name.

(** [ICard.__init__(self, name, unique=False)]: a unique card stores the
    name directly, any other card goes through the setter. *)
Definition init (name : string) (unique : bool) : outcome ICard :=
  if unique then Return {| _unique := unique; _name := name |}
  else
    value <~ name_check unique name ;;
    Return {| _unique := unique; _name := value |}.

End ICard.

(** ** ISurface *)

Record ISurface : Type := mkISurface {
  ISurface_card : ICard;
  _reflecting : pyval;
  _white : pyval
}.

Module ISurface.

(** [@reflecting.setter] up to the store. *)
Definition reflecting_check (value : pyval) : outcome pyval :=
  match value with
  | PyNone => Return value
  | PyBool _ => Return value
  | _ => Raise (Exc TypeError
           "The property ``reflecting`` must be None or of boolean type. User provided {0}.")
  end.

(** [@white.setter] up to the store. *)
Definition white_check (value : pyval) : outcome pyval :=
  match value with
  | PyNone => Return value
  | PyBool _ => Return value
  | _ => Raise (Exc TypeError
           "The property ``white`` must be None or of boolean type. User provided {0}.")
  end.

Definition set__reflecting (value : pyval) (self : ISurface) : ISurface :=
  {| ISurface_card := ISurface_card self; _reflecting := value; _white := _white self |}.

Definition set__white (value : pyval) (self : ISurface) : ISurface :=
  {| ISurface_card := ISurface_card self; _reflecting := _reflecting self; _white := value |}.

Definition reflecting (self : ISurface) : pyval := _reflecting self.

Definition white (self : ISurface) : pyval := _white self.

Definition name (self : ISurface) : string := ICard.name (ISurface_card self).

Definition reflecting_setter (value : pyval) : M ISurface unit :=
  assign (fun _ => reflecting_check value) set__reflecting.

Definition white_setter (value : pyval) : M ISurface unit :=
  assign (fun _ => white_check value) set__white.

(** [ISurface.__init__(self, name, reflecting, white)]: the card is
    initialised (not unique), both flags go through their setters, and
    only then is the pair tested. *)
Definition init (name : string) (reflecting white : pyval) : outcome ISurface :=
  card <~ ICard.init name false ;;
  r <~ reflecting_check reflecting ;;
  w <~ white_check white ;;
  let self := {| ISurface_card := card; _reflecting := r; _white := w |} in
  if truthy (ISurface.reflecting self) && truthy (ISurface.white self) then
    Raise (Exc ValueError
      "The user set the surface to be reflecting AND white, but can only be neither or one of the two.")
  else Return self.

End ISurface.

(** ** IAxisSurface *)

Record IAxisSurface : Type := mkIAxisSurface {
  IAxisSurface_base : ISurface;
  _cartesian_axis : string
}.

Module IAxisSurface.

(** [@cartesian_axis.setter] up to the store; the value stored is the
    lower-case letter. *)
Definition cartesian_axis_check (value : pyval) : outcome string :=
  match value with
  | PyStr s =>
      if negb (lower s =? "x")%string && negb (lower s =? "y")%string
         && negb (lower s =? "z")%string then
        Raise (Exc ValueError
          "AxisCylinder's cartesian_axis property must be 'x', 'X', 'y', 'Y', or 'z', 'Z'. User provided '{0}'.")
      else Return (lower s)
  | _ => Raise (Exc ValueError
           "AxisCylinder's cartesian_axis property must be a string. User provided {0}.")
  end.

Definition set__cartesian_axis (value : string) (self : IAxisSurface) : IAxisSurface :=
  {| IAxisSurface_base := IAxisSurface_base self; _cartesian_axis := value |}.

Definition cartesian_axis (self : IAxisSurface) : string := _cartesian_axis self.

Definition cartesian_axis_setter (value : pyval) : M IAxisSurface unit :=
  assign (fun _ => cartesian_axis_check value) set__cartesian_axis.

(** [IAxisSurface.__init__(self, name, cartesian_axis, reflecting, white)]. *)
Definition init (name : string) (cartesian_axis reflecting white : pyval)
  : outcome IAxisSurface :=
  base <~ ISurface.init name reflecting white ;;
  axis <~ cartesian_axis_check cartesian_axis ;;
  Return {| IAxisSurface_base := base; _cartesian_axis := axis |}.

End IAxisSurface.

(** ** AxisCylinder *)

Record AxisCylinder : Type := mkAxisCylinder {
  AxisCylinder_base : IAxisSurface;
  _radius : Q
}.

Module AxisCylinder.

(** [@radius.setter] up to the store. *)
Definition radius_check (value : Q) : outcome Q :=
  if py_le value 0 then
    Raise (Exc ValueError "The ``radius`` property must be positive. User provided %.4f.")
  else Return value.

Definition set__radius (value : Q) (self : AxisCylinder) : AxisCylinder :=
  {| AxisCylinder_base := AxisCylinder_base self; _radius := value |}.

Definition radius (self : AxisCylinder) : Q := _radius self.

Definition cartesian_axis (self : AxisCylinder) : string :=
  IAxisSurface.cartesian_axis (AxisCylinder_base self).

Definition name (self : AxisCylinder) : string :=
  ISurface.name (IAxisSurface_base (AxisCylinder_base self)).

Definition radius_setter (value : Q) : M AxisCylinder unit :=
  assign (fun _ => radius_check value) set__radius.

(** [AxisCylinder.__init__(self, name, cartesian_axis, radius,
    reflecting=None, white=None)]. *)
Definition init (name : string) (cartesian_axis : pyval) (radius : Q)
  (reflecting white : pyval) : outcome AxisCylinder :=
  base <~ IAxisSurface.init name cartesian_axis reflecting white ;;
  r <~ radius_check radius ;;
  Return {| AxisCylinder_base := base; _radius := r |}.

Definition shift_msg : string :=
  "A cylinder aligned with the %s axis cannot be shifted in the %s or %s directions.".

(** [AxisCylinder.shift(self, vector)]: three independent [if]s set the
    flag, the exception is raised at the end. *)
Definition shift (vector : Vec3) : M AxisCylinder unit :=
  let iserror := false in
  axis <- gets cartesian_axis ;;
  let iserror :=
    if (axis =? "x")%string && (py_ne (vec1 vector) 0 || py_ne (vec2 vector) 0)
    then true else iserror in
  axis <- gets cartesian_axis ;;
  let iserror :=
    if (axis =? "y")%string && (py_ne (vec0 vector) 0 || py_ne (vec2 vector) 0)
    then true else iserror in
  axis <- gets cartesian_axis ;;
  let iserror :=
    if (axis =? "z")%string && (py_ne (vec0 vector) 0 || py_ne (vec1 vector) 0)
    then true else iserror in
  if iserror then raise (Exc ValueError shift_msg) else ret tt.

Definition stretch_msg : string :=
  "Stretches perpendicular to the axis must be uniform in the two perpendicular directions. User provided %s stretch %.4f and %s stretch %.4f for a %s-aligned cylinder.".

(** [self.radius *= factor]: read, multiply, and assign through the setter. *)
Definition radius_imul (factor : Q) : M AxisCylinder unit :=
  r <- gets radius ;;
  radius_setter (r * factor).

(** [AxisCylinder.stretch(self, vector)]: one block per axis; a block
    either sets the flag, or scales the radius, or does nothing. *)
Definition stretch (vector : Vec3) : M AxisCylinder unit :=
  let iserror := false in
  axis <- gets cartesian_axis ;;
  iserror <-
    (if (axis =? "x")%string then
       if py_ne (vec1 vector) (vec2 vector) then ret true
       else if py_ne (vec1 vector) 0 then (radius_imul (vec1 vector) ;;; ret iserror)
       else ret iserror
     else ret iserror) ;;
  axis <- gets cartesian_axis ;;
  iserror <-
    (if (axis =? "y")%string then
       if py_ne (vec0 vector) (vec2 vector) then ret true
       else if py_ne (vec0 vector) 0 then (radius_imul (vec0 vector) ;;; ret iserror)
       else ret iserror
     else ret iserror) ;;
  axis <- gets cartesian_axis ;;
  iserror <-
    (if (axis =? "z")%string then
       if py_ne (vec0 vector) (vec1 vector) then ret true
       else if py_ne (vec0 vector) 0 then (radius_imul (vec0 vector) ;;; ret iserror)
       else ret iserror
     else ret iserror) ;;
  if iserror then raise (Exc ValueError stretch_msg) else ret tt.

End AxisCylinder.

(** ** AxisPlane *)

Record AxisPlane : Type := mkAxisPlane {
  AxisPlane_base : IAxisSurface;
  _position : Q
}.

Module AxisPlane.

Definition set__position (value : Q) (self : AxisPlane) : AxisPlane :=
  {| AxisPlane_base := AxisPlane_base self; _position := value |}.

Definition position (self : AxisPlane) : Q := _position self.

Definition cartesian_axis (self : AxisPlane) : string :=
  IAxisSurface.cartesian_axis (AxisPlane_base self).

Definition name (self : AxisPlane) : string :=
  ISurface.name (IAxisSurface_base (AxisPlane_base self)).

(** [@position.setter]: no validation. *)
Definition position_setter (value : Q) : M AxisPlane unit :=
  modify (set__position value).

(** [AxisPlane.__init__(self, name, cartesian_axis, position,
    reflecting=None, white=None)]. *)
Definition init (name : string) (cartesian_axis : pyval) (position : Q)
  (reflecting white : pyval) : outcome AxisPlane :=
  base <~ IAxisSurface.init name cartesian_axis reflecting white ;;
  Return {| AxisPlane_base := base; _position := position |}.

(** [AxisPlane.shift(self, vector)]. *)
Definition shift (vector : Vec3) : M AxisPlane unit :=
  axis <- gets cartesian_axis ;;
  if (axis =? "x")%string then
    p <- gets position ;; position_setter (p + vec0 vector)
  else if (axis =? "y")%string then
    p <- gets position ;; position_setter (p + vec1 vector)
  else if (axis =? "z")%string then
    p <- gets position ;; position_setter (p + vec2 vector)
  else ret tt.

(** [AxisPlane.stretch(self, vector)]. *)
Definition stretch (vector : Vec3) : M AxisPlane unit :=
  axis <- gets cartesian_axis ;;
  if (axis =? "x")%string && py_ne (vec0 vector) 0 then
    p <- gets position ;; position_setter (p * vec0 vector)
  else if (axis =? "y")%string && py_ne (vec1 vector) 0 then
    p <- gets position ;; position_setter (p * vec1 vector)
  else if (axis =? "z")%string && py_ne (vec2 vector) 0 then
    p <- gets position ;; position_setter (p * vec2 vector)
  else ret tt.

End AxisPlane.

(** ** Parallelepiped *)

(** A numpy array of two numbers, [np.array([lo, hi])]. *)
Definition ndarray2 : Type := (Q * Q)%type.

(** [arr * f] elementwise, [arr + f] elementwise, [f * arr] and [arr[::-1]]. *)
Definition arr_mul (arr : ndarray2) (f : Q) : ndarray2 := (fst arr * f, snd arr * f).

Definition arr_add (arr : ndarray2) (f : Q) : ndarray2 := (fst arr + f, snd arr + f).

Definition arr_rmul (f : Q) (arr : ndarray2) : ndarray2 := (f * fst arr, f * snd arr).

Definition arr_reversed (arr : ndarray2) : ndarray2 := (snd arr, fst arr).

(** [IMacrobody] adds nothing to [ISurface]; its constructor passes its
    arguments on. *)
Record Parallelepiped : Type := mkParallelepiped {
  Parallelepiped_base : ISurface;
  _xlims : ndarray2;
  _ylims : ndarray2;
  _zlims : ndarray2
}.

Module Parallelepiped.

(** [@xlims.setter], [@ylims.setter], [@zlims.setter] up to the store. *)
Definition xlims_check (value : ndarray2) : outcome ndarray2 :=
  if py_gt (fst value) (snd value) then
    Raise (Exc ValueError "The value of xmin, %.4f, is greater than that of xmax, %.4f.")
  else Return value.

Definition ylims_check (value : ndarray2) : outcome ndarray2 :=
  if py_gt (fst value) (snd value) then
    Raise (Exc ValueError "The value of ymin, %.4f, is greater than that of ymax, %.4f.")
  else Return value.

Definition zlims_check (value : ndarray2) : outcome ndarray2 :=
  if py_gt (fst value) (snd value) then
    Raise (Exc ValueError "The value of zmin, %.4f, is greater than that of zmax, %.4f.")
  else Return value.

Definition set__xlims (value : ndarray2) (self : Parallelepiped) : Parallelepiped :=
  {| Parallelepiped_base := Parallelepiped_base self;
     _xlims := value; _ylims := _ylims self; _zlims := _zlims self |}.

Definition set__ylims (value : ndarray2) (self : Parallelepiped) : Parallelepiped :=
  {| Parallelepiped_base := Parallelepiped_base self;
     _xlims := _xlims self; _ylims := value; _zlims := _zlims self |}.

Definition set__zlims (value : ndarray2) (self : Parallelepiped) : Parallelepiped :=
  {| Parallelepiped_base := Parallelepiped_base self;
     _xlims := _xlims self; _ylims := _ylims self; _zlims := value |}.

Definition xlims (self : Parallelepiped) : ndarray2 := _xlims self.

Definition ylims (self : Parallelepiped) : ndarray2 := _ylims self.

Definition zlims (self : Parallelepiped) : ndarray2 := _zlims self.

Definition name (self : Parallelepiped) : string :=
  ISurface.name (Parallelepiped_base self).

Definition xlims_setter (value : ndarray2) : M Parallelepiped unit :=
  assign (fun _ => xlims_check value) set__xlims.

Definition ylims_setter (value : ndarray2) : M Parallelepiped unit :=
  assign (fun _ => ylims_check value) set__ylims.

Definition zlims_setter (value : ndarray2) : M Parallelepiped unit :=
  assign (fun _ => zlims_check value) set__zlims.

(** [Parallelepiped.__init__(self, name, xmin, xmax, ymin, ymax, zmin,
    zmax, reflecting=False, white=False)]. *)
Definition init (name : string) (xmin xmax ymin ymax zmin zmax : Q)
  (reflecting white : pyval) : outcome Parallelepiped :=
  base <~ ISurface.init name reflecting white ;;
  x <~ xlims_check (xmin, xmax) ;;
  y <~ ylims_check (ymin, ymax) ;;
  z <~ zlims_check (zmin, zmax) ;;
  Return {| Parallelepiped_base := base; _xlims := x; _ylims := y; _zlims := z |}.

(** [self.xlims *= f] and [self.xlims += f]: numpy updates the array
    in place, so the new contents are in the object before the setter
    looks at them; then the property is assigned the same array. *)
Definition xlims_imul (f : Q) : M Parallelepiped unit :=
  arr <- gets xlims ;;
  modify (set__xlims (arr_mul arr f)) ;;;
  xlims_setter (arr_mul arr f).

Definition ylims_imul (f : Q) : M Parallelepiped unit :=
  arr <- gets ylims ;;
  modify (set__ylims (arr_mul arr f)) ;;;
  ylims_setter (arr_mul arr f).

Definition zlims_imul (f : Q) : M Parallelepiped unit :=
  arr <- gets zlims ;;
  modify (set__zlims (arr_mul arr f)) ;;;
  zlims_setter (arr_mul arr f).

Definition xlims_iadd (f : Q) : M Parallelepiped unit :=
  arr <- gets xlims ;;
  modify (set__xlims (arr_add arr f)) ;;;
  xlims_setter (arr_add arr f).

Definition ylims_iadd (f : Q) : M Parallelepiped unit :=
  arr <- gets ylims ;;
  modify (set__ylims (arr_add arr f)) ;;;
  ylims_setter (arr_add arr f).

Definition zlims_iadd (f : Q) : M Parallelepiped unit :=
  arr <- gets zlims ;;
  modify (set__zlims (arr_add arr f)) ;;;
  zlims_setter (arr_add arr f).

(** [Parallelepiped.shift(self, vector)]. *)
Definition shift (vector : Vec3) : M Parallelepiped unit :=
  xlims_iadd (vec0 vector) ;;;
  ylims_iadd (vec1 vector) ;;;
  zlims_iadd (vec2 vector).

(** [Parallelepiped.stretch(self, vector)]: per axis, nothing for a zero
    factor, an in-place product for a positive one, and for a negative
    one a new array, the product of the factor and the reversed limits. *)
Definition stretch (vector : Vec3) : M Parallelepiped unit :=
  (if py_ne (vec0 vector) 0 then
     if py_gt (vec0 vector) 0 then xlims_imul (vec0 vector)
     else (arr <- gets xlims ;; xlims_setter (arr_rmul (vec0 vector) (arr_reversed arr)))
   else ret tt) ;;;
  (if py_ne (vec1 vector) 0 then
     if py_gt (vec1 vector) 0 then ylims_imul (vec1 vector)
     else (arr <- gets ylims ;; ylims_setter (arr_rmul (vec1 vector) (arr_reversed arr)))
   else ret tt) ;;;
  (if py_ne (vec2 vector) 0 then
     if py_gt (vec2 vector) 0 then zlims_imul (vec2 vector)
     else (arr <- gets zlims ;; zlims_setter (arr_rmul (vec2 vector) (arr_reversed arr)))
   else ret tt).

End Parallelepiped.

(** ** The surface interface *)

(** The abstract methods [shift] and [stretch] of [ISurface], which
    every concrete surface class defines. *)
Class SurfaceMethods (T : Type) : Type := {
  abs_shift : Vec3 -> M T unit;
  abs_stretch : Vec3 -> M T unit
}.

#[global] Instance AxisCylinder_methods : SurfaceMethods AxisCylinder :=
  {| abs_shift := AxisCylinder.shift; abs_stretch := AxisCylinder.stretch |}.

#[global] Instance AxisPlane_methods : SurfaceMethods AxisPlane :=
  {| abs_shift := AxisPlane.shift; abs_stretch := AxisPlane.stretch |}.

#[global] Instance Parallelepiped_methods : SurfaceMethods Parallelepiped :=
  {| abs_shift := Parallelepiped.shift; abs_stretch := Parallelepiped.stretch |}.

(** ** The surface store *)

(** An object of one of the three surface classes. *)
Inductive Surface : Type :=
| SurfCylinder (c : AxisCylinder)
| SurfPlane (p : AxisPlane)
| SurfBox (p : Parallelepiped).

(** Surfaces are shared by reference: the store maps an address to the
    surface object that lives there. *)
Abbreviation heap := (gmap nat Surface).

Module Surface.

Definition name (self : Surface) : string :=
  match self with
  | SurfCylinder c => AxisCylinder.name c
  | SurfPlane p => AxisPlane.name p
  | SurfBox p => Parallelepiped.name p
  end.

(** Run a method of a class on an object of the union. *)
Definition lift {T : Type} (inj : T -> Surface) (m : M T unit) (self : T)
  : outcome unit * Surface :=
  (fst (m self), inj (snd (m self))).

(** [surface.shift(vector)] and [surface.stretch(vector)], dispatched on
    the class of the object. *)
Definition shift (vector : Vec3) : M Surface unit :=
  fun self =>
    match self with
    | SurfCylinder c => lift SurfCylinder (abs_shift vector) c
    | SurfPlane p => lift SurfPlane (abs_shift vector) p
    | SurfBox p => lift SurfBox (abs_shift vector) p
    end.

Definition stretch (vector : Vec3) : M Surface unit :=
  fun self =>
    match self with
    | SurfCylinder c => lift SurfCylinder (abs_stretch vector) c
    | SurfPlane p => lift SurfPlane (abs_stretch vector) p
    | SurfBox p => lift SurfBox (abs_stretch vector) p
    end.

(** Call a method on the surface at address [l]; the object is updated
    where it lives.  (An address outside the store does not occur in
    Python; the call is then without effect.) *)
Definition at_address (l : nat) (m : M Surface unit) : M heap unit :=
  fun h =>
    match h !! l with
    | Some s => (fst (m s), <[l := snd (m s)]> h)
    | None => (Return tt, h)
    end.

(** The radius of the cylinder at address [l]. *)
Definition radius_at (h : heap) (l : nat) : option Q :=
  match h !! l with
  | Some (SurfCylinder c) => Some (AxisCylinder.radius c)
  | _ => None
  end.

End Surface.

(** ** Regions *)

(** The region tree.  A leaf holds the address of its surface and the
    sense; an internal node owns its two children.  The [parent]
    back-reference of the source is not represented: no method modelled
    here reads it. *)
Inductive IRegion : Type :=
| RegionLeaf (card : ICard) (_surface : nat) (_pos_sense : bool)
| RegionAnd (card : ICard) (_left_child _right_child : IRegion)
| RegionOr (card : ICard) (_left_child _right_child : IRegion).

(** The first argument a function taken out of a bound method is called
    with: the instance it was bound to, or (as [walk] does for [or_func])
    the function object itself. *)
Inductive receiver (R : Type) : Type :=
| TheInstance (obj : R)
| TheFunction.

Arguments TheInstance {R} obj.
Arguments TheFunction {R}.

(** A bound method of a visitor object of class [R] acting on a world [W]:
    [im_self] and [im_func] as in Python 2. *)
Record bound_method (R W : Type) : Type := mkBoundMethod {
  im_self : R;
  im_func : receiver R -> IRegion -> M W unit
}.

Arguments im_self {R W} b.
Arguments im_func {R W} b.
Arguments mkBoundMethod {R W} im_self im_func.

Module IRegion.

(** [RegionLeaf.__init__(self, surface, pos_sense, name='<Empty>')]; the
    sense is a [bool] here, so the setter's type test cannot fail. *)
Definition RegionLeaf_init (surface : nat) (pos_sense : bool) (name : string)
  : outcome IRegion :=
  card <~ ICard.init name false ;;
  Return (RegionLeaf card surface pos_sense).

(** [IRegionBool.__init__(self, left_child, right_child, name='<Empty>')]
    for the two concrete classes. *)
Definition RegionAnd_init (left_child right_child : IRegion) (name : string)
  : outcome IRegion :=
  card <~ ICard.init name false ;;
  Return (RegionAnd card left_child right_child).

Definition RegionOr_init (left_child right_child : IRegion) (name : string)
  : outcome IRegion :=
  card <~ ICard.init name false ;;
  Return (RegionOr card left_child right_child).

(** [ISurface.neg] and [ISurface.pos] of the surface at address [self]. *)
Definition neg (self : nat) : outcome IRegion := RegionLeaf_init self false "<Empty>".

Definition pos (self : nat) : outcome IRegion := RegionLeaf_init self true "<Empty>".

(** [IRegion.intersect] ([&]) and [IRegion.union] ([|]). *)
Definition intersect (self arg : IRegion) : outcome IRegion :=
  RegionAnd_init self arg "<Empty>".

Definition union (self arg : IRegion) : outcome IRegion :=
  RegionOr_init self arg "<Empty>".

(** [IRegionBool.comment(self, midchar)], given the comments of the two
    children; [+] associates to the left. *)
Definition IRegionBool_comment (left_comment right_comment midchar : string) : string :=
  ((((("(" ++ left_comment) ++ " ") ++ midchar) ++ " ") ++ right_comment) ++ ")".

(** [comment()] of the three region classes.  The name of a leaf's
    surface is read from the store at the time of the call. *)
Fixpoint comment (h : heap) (self : IRegion) : option string :=
  match self with
  | RegionLeaf _ surface pos_sense =>
      match h !! surface with
      | Some s =>
          let prefix := if pos_sense then "+" else "-" in
          Some (prefix ++ Surface.name s)
      | None => None
      end
  | RegionAnd _ left_child right_child =>
      match comment h left_child, comment h right_child with
      | Some l, Some r => Some (IRegionBool_comment l r "&")
      | _, _ => None
      end
  | RegionOr _ left_child right_child =>
      match comment h left_child, comment h right_child with
      | Some l, Some r => Some (IRegionBool_comment l r "|")
      | _, _ => None
      end
  end.

(** [IRegion.shift(self, vector)] and [IRegion.stretch(self, vector)]:
    the bodies are a docstring and the comment [# TODO walk.]; the call
    returns [None] and touches nothing. *)
Definition shift (self : IRegion) (vector : Vec3) : M heap unit := ret tt.

Definition stretch (self : IRegion) (vector : Vec3) : M heap unit := ret tt.

Definition isinstance_msg : string :=
  "isinstance() arg 2 must be a class, type, or tuple of classes and types".

(** [isinstance(obj, f)] with a bound method [f] as second argument: a
    bound method is not a class, the builtin raises [TypeError]. *)
Definition isinstance_bound_method {R W : Type} (obj : IRegion) (f : bound_method R W)
  : M W bool :=
  raise (Exc TypeError isinstance_msg).

(** [IRegion.walk(self, leaf_func, and_func=None, or_func=None)].  The
    recursive calls pass [leaf_func] only, so the children run with both
    combinator visitors at their default [None]. *)
Fixpoint walk {R W : Type} (self : IRegion) (leaf_func : bound_method R W)
  (and_func or_func : option (bound_method R W)) : M W unit :=
  match self with
  | RegionLeaf _ _ _ =>
      im_func leaf_func (TheInstance (im_self leaf_func)) self
  | RegionAnd _ left_child right_child
  | RegionOr _ left_child right_child =>
      walk left_child leaf_func None None ;;;
      (match and_func with
       | Some f =>
           b <- isinstance_bound_method self f ;;
           if b then im_func f (TheInstance (im_self f)) self else ret tt
       | None => ret tt
       end) ;;;
      (match or_func with
       | Some f =>
           b <- isinstance_bound_method self f ;;
           if b then im_func f TheFunction self else ret tt
       | None => ret tt
       end) ;;;
      walk right_child leaf_func None None
  end.

(** The leaves of a tree, left to right. *)
Fixpoint leaves (self : IRegion) : list IRegion :=
  match self with
  | RegionLeaf _ _ _ => [self]
  | RegionAnd _ l r => (leaves l ++ leaves r)%list
  | RegionOr _ l r => (leaves l ++ leaves r)%list
  end.

(** Calling the leaf visitor on each region of a list in turn. *)
Fixpoint visit_each {R W : Type} (leaf_func : bound_method R W) (rs : list IRegion)
  : M W unit :=
  match rs with
  | [] => ret tt
  | r :: rs' =>
      im_func leaf_func (TheInstance (im_self leaf_func)) r ;;;
      visit_each leaf_func rs'
  end.

End IRegion.

(** ** Cells *)

(** Modelled from the spec: [pyne.material.Material] is defined outside
    this module; a cell consumes "a Material value (name, composition)"
    of which "only name emptiness is checked". *)
Record Material : Type := mkMaterial { Material_name : string }.

Record CellVoid : Type := mkCellVoid {
  CellVoid_card : ICard;
  _region : IRegion
}.

Record Cell : Type := mkCell {
  Cell_base : CellVoid;
  _material : Material;
  _density : Q;
  _density_units : pyval
}.

Module Cell.

(** The names bound at the top level of the module: the three imports
    and the classes. *)
Definition module_globals : list string :=
  [ "abc"; "np"; "material";
    "ICard"; "CellVoid"; "Cell"; "CellVoidMCNP"; "CellMCNP"; "IUniverse";
    "UniverseByRegion"; "UniverseByLattice"; "Lattice"; "LatticeByArray";
    "ISurface"; "IAxisSurface"; "AxisCylinder"; "AxisPlane"; "IMacrobody";
    "Parallelepiped"; "Cuboid"; "IRegion"; "IRegionBool"; "RegionAnd";
    "RegionOr"; "RegionLeaf"; "IMisc"; "ISource"; "Criticality";
    "CriticalityPoints"; "ITally"; "ICellSurfTally"; "SurfaceCurrent";
    "IAverageTally"; "SurfaceFlux"; "CellFlux"; "CellEnergyDeposition";
    "CellFissionEnergyDeposition"; "CellPulseHeight"; "CellChargeDeposition";
    "RepeatedStructure"; "IDetector"; "PointDetector"; "RingDetector";
    "EnergyGrid"; "Comment" ].

(** Reading a name that is not a local variable of the function: it is
    looked up among the module's globals (it is no builtin either), and a
    name that is not bound raises [NameError]. *)
Definition load_global (name : string) : outcome pyval :=
  if existsb (String.eqb name) module_globals then Return (PyObj name)
  else Raise (Exc NameError "global name '%s' is not defined").

(** [v != s] for a string constant [s]. *)
Definition py_str_ne (v : pyval) (s : string) : bool :=
  match v with
  | PyStr s' => negb (s' =? s)%string
  | _ => true
  end.

(** [CellVoid.__init__(self, name, region)]. *)
Definition CellVoid_init (name : string) (region : IRegion) : outcome CellVoid :=
  card <~ ICard.init name false ;;
  Return {| CellVoid_card := card; _region := region |}.

(** [@material.setter] up to the store. *)
Definition material_check (obj : Material) : outcome Material :=
  if (Material_name obj =? "")%string then
    Raise (Exc ValueError "The ``name`` property of the material cannot be empty.")
  else Return obj.

(** [@density_units.setter] up to the store.  The parameter is [value];
    the condition reads the name [density_units], which is not a local
    variable of the setter. *)
Definition density_units_check (value : pyval) : outcome pyval :=
  a <~ load_global "density_units" ;;
  if py_str_ne a "g/cm^3" then
    b <~ load_global "density_units" ;;
    if py_str_ne b "atoms/b/cm" then
      Raise (Exc ValueError
        "The property ``density_units`` must be either 'g/cm^3' or 'atoms/b/cm'. User provided '{0}'")
    else Return value
  else Return value.

Definition set__density_units (value : pyval) (self : Cell) : Cell :=
  {| Cell_base := Cell_base self; _material := _material self;
     _density := _density self; _density_units := value |}.

Definition density_units (self : Cell) : pyval := _density_units self.

Definition density_units_setter (value : pyval) : M Cell unit :=
  assign (fun _ => density_units_check value) set__density_units.

(** [Cell.__init__(self, name, region, material, density, density_units)]. *)
Definition init (name : string) (region : IRegion) (material : Material)
  (density : Q) (density_units : pyval) : outcome Cell :=
  base <~ CellVoid_init name region ;;
  m <~ material_check material ;;
  u <~ density_units_check density_units ;;
  Return {| Cell_base := base; _material := m; _density := density;
            _density_units := u |}.

End Cell.

(** ** Vocabulary of the statements *)

(** The axis letters a constructed axis surface can hold. *)
Definition valid_axis (axis : string) : Prop :=
  axis = "x" \/ axis = "y" \/ axis = "z".

(** The two components of a vector perpendicular to an axis, in the
    order x, y, z. *)
Definition off_axis (axis : string) (vector : Vec3) : Q * Q :=
  if (axis =? "x")%string then (vec1 vector, vec2 vector)
  else if (axis =? "y")%string then (vec0 vector, vec2 vector)
  else (vec0 vector, vec1 vector).


(** The bounds of a box are ordered on every axis. *)
Definition valid_bounds (p : Parallelepiped) : Prop :=
  fst (Parallelepiped.xlims p) <= snd (Parallelepiped.xlims p) /\
  fst (Parallelepiped.ylims p) <= snd (Parallelepiped.ylims p) /\
  fst (Parallelepiped.zlims p) <= snd (Parallelepiped.zlims p).


(** Every leaf of a region refers to a surface of the store. *)
Fixpoint allocated (h : heap) (r : IRegion) : Prop :=
  match r with
  | RegionLeaf _ l _ => is_Some (h !! l)
  | RegionAnd _ a b => allocated h a /\ allocated h b
  | RegionOr _ a b => allocated h a /\ allocated h b
  end.

(** A visitor object that keeps a log: each method appends one entry
    telling which method ran on which node. *)
Definition log_entry (tag : string) (node : IRegion) : string :=
  match node with
  | RegionLeaf _ l sense => tag ++ ":leaf"
  | RegionAnd _ _ _ => tag ++ ":and"
  | RegionOr _ _ _ => tag ++ ":or"
  end.

Definition logger (tag : string) : bound_method unit (list IRegion * list string) :=
  mkBoundMethod tt
    (fun _ node =>
       modify (fun w => ((fst w ++ [node])%list, (snd w ++ [log_entry tag node])%list))).

(** The cylinder of the docstrings, [AxisCylinder('mycyl', 'z', 0.4)]. *)
Definition mycyl : AxisCylinder :=
  mkAxisCylinder
    (mkIAxisSurface (mkISurface (mkICard false "mycyl") PyNone PyNone) "z")
    (4 # 10).

(** The cylinder [c = AxisCylinder('c', 'z', 1)]. *)
Definition cyl_c : AxisCylinder :=
  mkAxisCylinder
    (mkIAxisSurface (mkISurface (mkICard false "c") PyNone PyNone) "z")
    1.

(** The box of the docstring, [Parallelepiped('mypp', 0, 4, -2, 2, -3, 6)]. *)
Definition mypp : Parallelepiped :=
  mkParallelepiped (mkISurface (mkICard false "mypp") (PyBool false) (PyBool false))
    (0, 4) (-2, 2) (-3, 6).

(** A plane named s1 and a store holding it at address 0 and the
    cylinder [c] at address 1. *)
Definition plane_s1 : AxisPlane :=
  mkAxisPlane
    (mkIAxisSurface (mkISurface (mkICard false "s1") PyNone PyNone) "x")
    3.

Definition store_s1_c : heap :=
  <[1%nat := SurfCylinder cyl_c]> (<[0%nat := SurfPlane plane_s1]> ∅).

(** Following the spec's words, for comparison with [IRegion.stretch]:
    "shift/stretch applied at the Region level must recurse to every
    leaf and mutate its Surface". *)
Fixpoint spec_stretch_every_leaf (self : IRegion) (vector : Vec3) : M heap unit :=
  match self with
  | RegionLeaf _ l _ => Surface.at_address l (Surface.stretch vector)
  | RegionAnd _ a b => spec_stretch_every_leaf a vector ;;; spec_stretch_every_leaf b vector
  | RegionOr _ a b => spec_stretch_every_leaf a vector ;;; spec_stretch_every_leaf b vector
  end.

(** Three leaves [a], [b], [c] over the surfaces at addresses 0, 1, 2,
    and the regions [a & b], [(a & b) & c] and [a & (b & c)]. *)
Definition leaf_a : IRegion := RegionLeaf (mkICard false "<Empty>") 0 true.

Definition leaf_b : IRegion := RegionLeaf (mkICard false "<Empty>") 1 false.

Definition leaf_c : IRegion := RegionLeaf (mkICard false "<Empty>") 2 true.

Definition a_and_b : IRegion := RegionAnd (mkICard false "<Empty>") leaf_a leaf_b.

Definition b_and_c : IRegion := RegionAnd (mkICard false "<Empty>") leaf_b leaf_c.

Definition ab_and_c : IRegion := RegionAnd (mkICard false "<Empty>") a_and_b leaf_c.

Definition a_and_bc : IRegion := RegionAnd (mkICard false "<Empty>") leaf_a b_and_c.

(** ** Criticality *)

(** A number given where the source tests [type(value) is int]: a
    machine integer ([int]), an integer beyond the machine range
    ([long]), or a [float]. *)
Inductive pynumber : Type :=
| PyInt (n : Z)
| PyLong (n : Z)
| PyFloat (q : Q).

Definition number_value (v : pynumber) : Q :=
  match v with
  | PyInt n => inject_Z n
  | PyLong n => inject_Z n
  | PyFloat q => q
  end.

Record Criticality : Type := mkCriticality {
  Criticality_card : ICard;
  _n_histories : Z;
  _keff_guess : pynumber;
  _n_skip_cycles : Z;
  _n_cycles : Z
}.

Module Criticality.

(** [@n_histories.setter] up to the store. *)
Definition n_histories_check (value : pynumber) : outcome Z :=
  match value with
  | PyInt n =>
      if (n <=? 0)%Z then
        Raise (Exc ValueError
          "The property ``n_histories`` must be positive. User provided %i.")
      else Return n
  | _ => Raise (Exc ValueError
           "The property ``n_histories`` must be an integer. User provided %.4f.")
  end.

(** [@keff_guess.setter] up to the store. *)
Definition keff_guess_check (value : pynumber) : outcome pynumber :=
  if py_gt 0 (number_value value) then
    Raise (Exc ValueError
      "The property ``keff_guess`` must be non-negative. User provided %.4f.")
  else Return value.

(** [@n_skip_cycles.setter] up to the store. *)
Definition n_skip_cycles_check (value : pynumber) : outcome Z :=
  match value with
  | PyInt n =>
      if (n <=? 0)%Z then
        Raise (Exc ValueError
          "The property ``n_skip_cycles`` must be positive. User provided %i.")
      else Return n
  | _ => Raise (Exc ValueError
           "The property ``n_skip_cycles`` must be an integer. User provided %.4f.")
  end.

(** [@n_cycles.setter] up to the store; [n_skip_cycles] is
    [self.n_skip_cycles]. *)
Definition n_cycles_check (n_skip_cycles : Z) (value : pynumber) : outcome Z :=
  match value with
  | PyInt n =>
      if (n <? n_skip_cycles)%Z then
        Raise (Exc ValueError
          "The property ``n_cycles`` must be equal to or greater than ``n_skip_cycles``. User provided %i.")
      else Return n
  | _ => Raise (Exc ValueError
           "The property ``n_cycles`` must be an integer. User provided %.4f.")
  end.

Definition set__n_histories (value : Z) (self : Criticality) : Criticality :=
  {| Criticality_card := Criticality_card self; _n_histories := value;
     _keff_guess := _keff_guess self; _n_skip_cycles := _n_skip_cycles self;
     _n_cycles := _n_cycles self |}.

Definition set__keff_guess (value : pynumber) (self : Criticality) : Criticality :=
  {| Criticality_card := Criticality_card self; _n_histories := _n_histories self;
     _keff_guess := value; _n_skip_cycles := _n_skip_cycles self;
     _n_cycles := _n_cycles self |}.



Definition n_histories (self : Criticality) : Z := _n_histories self.

Definition keff_guess (self : Criticality) : pynumber := _keff_guess self.

Definition n_skip_cycles (self : Criticality) : Z := _n_skip_cycles self.

Definition n_cycles (self : Criticality) : Z := _n_cycles self.

Definition name (self : Criticality) : string := ICard.name (Criticality_card self).

Definition n_histories_setter (value : pynumber) : M Criticality unit :=
  assign (fun _ => n_histories_check value) set__n_histories.

Definition keff_guess_setter (value : pynumber) : M Criticality unit :=
  assign (fun _ => keff_guess_check value) set__keff_guess.



(** [Criticality.__init__(self, n_histories=1000, keff_guess=1.0,
    n_skip_cycles=30, n_cycles=130)]: a unique card named criticality;
    the four properties are assigned in this order. *)
Definition init (n_histories keff_guess n_skip_cycles n_cycles : pynumber)
  : outcome Criticality :=
  card <~ ICard.init "criticality" true ;;
  h <~ n_histories_check n_histories ;;
  k <~ keff_guess_check keff_guess ;;
  s <~ n_skip_cycles_check n_skip_cycles ;;
  c <~ n_cycles_check s n_cycles ;;
  Return {| Criticality_card := card; _n_histories := h; _keff_guess := k;
            _n_skip_cycles := s; _n_cycles := c |}.

End Criticality.

(** ** CriticalityPoints *)

Record CriticalityPoints : Type := mkCriticalityPoints {
  CriticalityPoints_card : ICard;
  _points : list (list Q)
}.

Module CriticalityPoints.

(** The loop of [@points.setter]: the first point whose length is not 3
    raises.  ([len(point) is not 3] compares a small integer by
    identity, which CPython decides as [!=].) *)
Fixpoint points_loop (value : list (list Q)) : outcome unit :=
  match value with
  | [] => Return tt
  | point :: rest =>
      if negb (length point =? 3)%nat then
        Raise (Exc ValueError
          "Length of all point lists/arrays must be 3. User provided a point %s.")
      else points_loop rest
  end.

(** [@points.setter] up to the store. *)
Definition points_check (value : list (list Q)) : outcome (list (list Q)) :=
  _ <~ points_loop value ;;
  Return value.

Definition set__points (value : list (list Q)) (self : CriticalityPoints)
  : CriticalityPoints :=
  {| CriticalityPoints_card := CriticalityPoints_card self; _points := value |}.

Definition points (self : CriticalityPoints) : list (list Q) := _points self.

Definition points_setter (value : list (list Q)) : M CriticalityPoints unit :=
  assign (fun _ => points_check value) set__points.

(** [CriticalityPoints.__init__(self, points=[[0, 0, 0]])]. *)
Definition init (points : list (list Q)) : outcome CriticalityPoints :=
  card <~ ICard.init "criticalitypoints" true ;;
  p <~ points_check points ;;
  Return {| CriticalityPoints_card := card; _points := p |}.

End CriticalityPoints.

(** ** Tallies *)

(** The [particle] argument of a tally: one string, or a list of strings. *)
Inductive particle_arg : Type :=
| OneParticle (s : string)
| ParticleList (l : list string).

(** The [cards] argument of a tally: one cell or surface card, given by
    its address, or a list whose elements are again cards or lists. *)
#[local] Unset Elimination Schemes.
Inductive cards_arg : Type :=
| OneCard (c : nat)
| CardList (l : list cards_arg).
#[local] Set Elimination Schemes.

(** What a call can raise besides the exceptions of the four classes
    above: the interpreter's own errors. *)
Inductive raised : Type :=
| Raised (e : exn)
| IndexError
| AttributeError
| UnboundLocalError
| UserWarning (msg : string).

Inductive result (A : Type) : Type :=
| Ok (a : A)
| Fail (r : raised).

Arguments Ok {A} a.
Arguments Fail {A} r.

Record ITally : Type := mkITally {
  ITally_card : ICard;
  _particle : particle_arg
}.

Record ICellSurfTally : Type := mkICellSurfTally {
  ICellSurfTally_base : ITally;
  _cards : cards_arg;
  _alt_units : bool
}.

Record IAverageTally : Type := mkIAverageTally {
  IAverageTally_base : ICellSurfTally;
  _average : bool
}.

Record SurfaceCurrent : Type := mkSurfaceCurrent {
  SurfaceCurrent_base : ICellSurfTally;
  _total : bool
}.

Module Tally.

(** [value != s] for the [particle] argument and a string constant: a
    list differs from every string. *)
Definition differs (value : particle_arg) (s : string) : bool :=
  match value with
  | OneParticle s' => negb (s' =? s)%string
  | ParticleList _ => true
  end.

(** [@particle.setter] of [ITally] up to the store. *)
Definition ITally_particle_check (value : particle_arg) : outcome particle_arg :=
  if differs value "neutron" && differs value "photon"
     && differs value "electron" && differs value "proton" then
    Raise (Exc ValueError
      "The property ``particle`` must be 'neutron', 'photon', 'electron', or 'proton'. User provided '%s'.")
  else Return value.

(** The loop over a list of particles in [@particle.setter] of
    [CellEnergyDeposition]. *)
Fixpoint CellEnergyDeposition_particle_loop (value : list string) : outcome unit :=
  match value with
  | [] => Return tt
  | string :: rest =>
      if negb (string =? "neutron")%string && negb (string =? "photon")%string
         && negb (string =? "electron")%string && negb (string =? "proton")%string then
        Raise (Exc ValueError
          "The ``particle`` list must contain only 'neutron', 'photon', 'electron', or 'proton'. User provided '%s'.")
      else CellEnergyDeposition_particle_loop rest
  end.

(** [@particle.setter] of [CellEnergyDeposition] up to the store. *)
Definition CellEnergyDeposition_particle_check (value : particle_arg)
  : outcome particle_arg :=
  match value with
  | ParticleList l =>
      _ <~ CellEnergyDeposition_particle_loop l ;;
      Return value
  | OneParticle s =>
      if negb (s =? "neutron")%string && negb (s =? "photon")%string
         && negb (s =? "electron")%string && negb (s =? "proton")%string
         && negb (s =? "all")%string then
        Raise (Exc ValueError
          "The property ``particle`` must be 'neutron', 'photon', 'electron', 'proton', or 'all'.User provided '%s'.")
      else Return value
  end.

(** [CellPulseHeight._assert_particle(self, string)]. *)
Definition _assert_particle (string : string) : outcome unit :=
  if negb (string =? "neutron")%string && negb (string =? "photon")%string
     && negb (string =? "electron")%string && negb (string =? "proton")%string then
    Raise (Exc ValueError
      "The ``particle`` list must contain only 'neutron', 'photon', 'electron', or 'proton'. User provided '%s'.")
  else Return tt.

Fixpoint CellPulseHeight_particle_loop (value : list string) : outcome unit :=
  match value with
  | [] => Return tt
  | string :: rest =>
      _ <~ _assert_particle string ;;
      CellPulseHeight_particle_loop rest
  end.

(** [@particle.setter] of [CellPulseHeight] up to the store.  In the
    branch of a single string the argument of [_assert_particle] is the
    loop variable [string] of the other branch, a local variable that
    has no value there. *)
Definition CellPulseHeight_particle_check (value : particle_arg) : result particle_arg :=
  match value with
  | ParticleList l =>
      match CellPulseHeight_particle_loop l with
      | Return _ => Ok value
      | Raise e => Fail (Raised e)
      end
  | OneParticle _ => Fail UnboundLocalError
  end.

(** [ITally.__init__], [ICellSurfTally.__init__] and
    [IAverageTally.__init__]; [particle_check] is the [particle] setter
    of the class of the object being constructed. *)
Definition ITally_init (particle_check : particle_arg -> outcome particle_arg)
  (name : string) (particle : particle_arg) : outcome ITally :=
  card <~ ICard.init name false ;;
  p <~ particle_check particle ;;
  Return {| ITally_card := card; _particle := p |}.

Definition ICellSurfTally_init (particle_check : particle_arg -> outcome particle_arg)
  (name : string) (particle : particle_arg) (cards : cards_arg) (alt_units : bool)
  : outcome ICellSurfTally :=
  base <~ ITally_init particle_check name particle ;;
  Return {| ICellSurfTally_base := base; _cards := cards; _alt_units := alt_units |}.

Definition IAverageTally_init (particle_check : particle_arg -> outcome particle_arg)
  (name : string) (particle : particle_arg) (cards : cards_arg)
  (average alt_units : bool) : outcome IAverageTally :=
  base <~ ICellSurfTally_init particle_check name particle cards alt_units ;;
  Return {| IAverageTally_base := base; _average := average |}.

Definition particle (self : IAverageTally) : particle_arg :=
  _particle (ICellSurfTally_base (IAverageTally_base self)).

Definition alt_units (self : IAverageTally) : bool :=
  _alt_units (IAverageTally_base self).

Definition name (self : ITally) : string := ICard.name (ITally_card self).


(** [SurfaceFlux.__init__] and [CellFlux.__init__] (name, particle,
    cards, average=False, alt_units=False). *)
Definition SurfaceFlux_init (name : string) (particle : particle_arg)
  (cards : cards_arg) (average alt_units : bool) : outcome IAverageTally :=
  IAverageTally_init ITally_particle_check name particle cards average alt_units.


(** [CellEnergyDeposition.__init__(self, name, particles, cards,
    average=False, alt_units=False)]: the test of 'all' with alternative
    units comes after the object is filled. *)
Definition CellEnergyDeposition_init (name : string) (particles : particle_arg)
  (cards : cards_arg) (average alt_units : bool) : outcome IAverageTally :=
  self <~ IAverageTally_init CellEnergyDeposition_particle_check name particles cards
            average alt_units ;;
  if negb (differs (particle self) "all") && Tally.alt_units self then
    Raise (Exc ValueError "The particle cannot be 'all' if alt_units is True.")
  else Return self.

(** [CellPulseHeight.__init__(self, name, particles, cards,
    average=False, alt_units=False)]. *)
Definition CellPulseHeight_init (name : string) (particles : particle_arg)
  (cards : cards_arg) (average alt_units : bool) : result IAverageTally :=
  match ICard.init name false with
  | Raise e => Fail (Raised e)
  | Return card =>
      match CellPulseHeight_particle_check particles with
      | Fail r => Fail r
      | Ok p =>
          Ok {| IAverageTally_base :=
                  {| ICellSurfTally_base := {| ITally_card := card; _particle := p |};
                     _cards := cards; _alt_units := alt_units |};
                _average := average |}
      end
  end.

(** [if x not in card_list: card_list += [x]]; cards are compared by
    identity, that is by address. *)
Definition add_if_absent (card_list : list nat) (x : nat) : list nat :=
  if negb (existsb (Nat.eqb x) card_list) then (card_list ++ [x])%list else card_list.

(** [ICellSurfTally._unique_card_list(self)].  The last [else] of the
    source, which raises, cannot be reached: its two tests are [type(..)
    is not list] and [type(..) is list]. *)
Definition _unique_card_list (self : ICellSurfTally) : list nat :=
  match _cards self with
  | OneCard c => [c]
  | CardList objs =>
      fold_left
        (fun card_list obj =>
           match obj with
           | CardList avg =>
               fold_left
                 (fun card_list avgobj =>
                    match avgobj with
                    | OneCard a => add_if_absent card_list a
                    | CardList _ => card_list
                    end)
                 avg card_list
           | OneCard c => add_if_absent card_list c
           end)
        objs []
  end.

(** The loop over a list of particles in [ITally.comment]. *)
Fixpoint particle_loop (total pcounter : nat) (parts : list string) (string : string)
  : String.string :=
  match parts with
  | [] => string
  | part :: rest =>
      let pcounter := S pcounter in
      let string := (string ++ (part ++ "s"))%string in
      let string := if (pcounter <? total)%nat then (string ++ ", ")%string else string in
      particle_loop total pcounter rest string
  end.

(** [ITally.comment(self, title)]. *)
Definition ITally_comment (title : string) (self : ITally) : string :=
  let string := (title ++ " tally '" ++ name self ++ "' of ")%string in
  let string :=
    match _particle self with
    | OneParticle p =>
        let string := (string ++ p)%string in
        if negb (p =? "all")%string then (string ++ "s")%string else string
    | ParticleList l => particle_loop (length l) 0 l string
    end in
  (string ++ ": ")%string.

(** The loop over the cards of an averaged group in
    [ICellSurfTally.comment]; an element that is itself a list has no
    [name]. *)
Fixpoint group_loop (name_of : nat -> string) (total incounter : nat)
  (avg : list cards_arg) (string : string) : result String.string :=
  match avg with
  | [] => Ok string
  | avgobj :: rest =>
      let incounter := S incounter in
      match avgobj with
      | OneCard a =>
          let string := (string ++ ("'" ++ name_of a ++ "'"))%string in
          let string :=
            if (incounter <? total)%nat then (string ++ ", ")%string else string in
          group_loop name_of total incounter rest string
      | CardList _ => Fail AttributeError
      end
  end.

(** The loop over [self.cards] in [ICellSurfTally.comment]. *)
Fixpoint cards_loop (name_of : nat -> string) (union_type : string)
  (total outcounter : nat) (objs : list cards_arg) (string : string)
  : result String.string :=
  match objs with
  | [] => Ok string
  | obj :: rest =>
      let outcounter := S outcounter in
      match
        match obj with
        | OneCard c => Ok (string ++ ("'" ++ name_of c ++ "'"))%string
        | CardList avg =>
            group_loop name_of (length avg) 0 avg (string ++ (union_type ++ " in "))%string
        end
      with
      | Fail r => Fail r
      | Ok string =>
          let string :=
            if (outcounter <? total)%nat then (string ++ "; ")%string else string in
          cards_loop name_of union_type total outcounter rest string
      end
  end.

(** [ICellSurfTally.comment(self, title, union_type, card_type)];
    [name_of] gives the name a card has at the time of the call. *)
Definition ICellSurfTally_comment (name_of : nat -> string)
  (title union_type card_type : string) (self : ICellSurfTally) : result string :=
  let string := ITally_comment title (ICellSurfTally_base self) in
  match _cards self with
  | OneCard c => Ok (string ++ (card_type ++ " '" ++ name_of c ++ "'"))%string
  | CardList objs =>
      match objs with
      | [] => Fail IndexError
      | first :: _ =>
          let string :=
            match first with
            | OneCard _ => (string ++ (card_type ++ "s "))%string
            | CardList _ => string
            end in
          cards_loop name_of union_type (length objs) 0 objs string
      end
  end.

(** [IAverageTally.comment(self, title, card_type)]. *)
Definition IAverageTally_comment (name_of : nat -> string) (title card_type : string)
  (self : IAverageTally) : result string :=
  let avgstr := "avg." in
  match ICellSurfTally_comment name_of title avgstr card_type (IAverageTally_base self) with
  | Fail r => Fail r
  | Ok string =>
      if _average self then Ok (string ++ ("; and " ++ avgstr ++ " of all provided."))%string
      else Ok (string ++ ".")%string
  end.

(** [comment()] of [SurfaceFlux], [CellFlux], [CellEnergyDeposition],
    [CellFissionEnergyDeposition] and [CellPulseHeight]. *)
Definition SurfaceFlux_comment (name_of : nat -> string) (self : IAverageTally)
  : result string :=
  IAverageTally_comment name_of "Surface flux" "surface" self.


Definition CellEnergyDeposition_comment (name_of : nat -> string) (self : IAverageTally)
  : result string :=
  IAverageTally_comment name_of "Energy deposition" "cell" self.

Definition CellFissionEnergyDeposition_comment (name_of : nat -> string)
  (self : IAverageTally) : result string :=
  IAverageTally_comment name_of "Fission energy deposition" "cell" self.

Definition CellPulseHeight_comment (name_of : nat -> string) (self : IAverageTally)
  : result string :=
  IAverageTally_comment name_of "Pulse height" "cell" self.

(** [SurfaceCurrent.comment(self)]. *)
Definition SurfaceCurrent_comment (name_of : nat -> string) (self : SurfaceCurrent)
  : result string :=
  match ICellSurfTally_comment name_of "Surface current" "total" "surface"
          (SurfaceCurrent_base self) with
  | Fail r => Fail r
  | Ok string =>
      if _total self then Ok (string ++ "; and total of all provided.")%string
      else Ok (string ++ ".")%string
  end.

End Tally.

(** ** CellVoidMCNP *)

(** Of the keyword arguments of the constructor only the temperature,
    the volume and the four importances are used; the object keeps the
    temperature and the importances. *)
Record CellVoidMCNP : Type := mkCellVoidMCNP {
  CellVoidMCNP_base : CellVoid;
  _temperature : option Q;
  _neutron_imp : pyval;
  _photon_imp : pyval;
  _electron_imp : pyval;
  _proton_imp : pyval
}.

Module CellVoidMCNP.

Definition celsius_msg : string :=
  "Temperature set as less than 200 K. Are you trying to specify temperature in degrees Celcius, etc.? User provided %.4f.".

Definition kT_msg : string :=
  "Temperature set as less than 1 K. Are you trying to specify temperature as 'kT'? User provided %.4f.".

(** [@temperature.setter] up to the store; [None] is no temperature. *)
Definition temperature_check (value : option Q) : result (option Q) :=
  match value with
  | Some v =>
      if py_gt 200 v then Fail (UserWarning celsius_msg)
      else if py_gt 1 v then Fail (UserWarning kT_msg)
      else Ok value
  | None => Ok value
  end.

(** [@volume.setter]: a test, and no store. *)
Definition volume_check (value : option Q) : outcome unit :=
  match value with
  | Some v =>
      if py_gt 0 v then
        Raise (Exc ValueError
          "The ``volume`` property cannot be negative. User provided %.4f.")
      else Return tt
  | None => Return tt
  end.

Definition temperature (self : CellVoidMCNP) : option Q := _temperature self.

(** [CellVoidMCNP.__init__(self, name, region, temperature=None,
    volume=None, neutron_imp=None, photon_imp=None, electron_imp=None,
    proton_imp=None, ...)]. *)
Definition init (name : string) (region : IRegion) (temperature volume : option Q)
  (neutron_imp photon_imp electron_imp proton_imp : pyval) : result CellVoidMCNP :=
  match Cell.CellVoid_init name region with
  | Raise e => Fail (Raised e)
  | Return base =>
      match temperature_check temperature with
      | Fail r => Fail r
      | Ok t =>
          match volume_check volume with
          | Raise e => Fail (Raised e)
          | Return _ =>
              Ok {| CellVoidMCNP_base := base; _temperature := t;
                    _neutron_imp := neutron_imp; _photon_imp := photon_imp;
                    _electron_imp := electron_imp; _proton_imp := proton_imp |}
          end
      end
  end.

End CellVoidMCNP.

(** ** Vocabulary of the further statements *)

(** The component of a vector along an axis. *)
Definition on_axis (axis : string) (vector : Vec3) : Q :=
  if (axis =? "x")%string then vec0 vector
  else if (axis =? "y")%string then vec1 vector
  else vec2 vector.







(** The six strings the axis setter accepts. *)
Definition axis_letter (s : string) : Prop :=
  s = "x" \/ s = "X" \/ s = "y" \/ s = "Y" \/ s = "z" \/ s = "Z".

(** What is assumed of a cylinder: the invariant of its constructor. *)
Definition valid_cylinder (c : AxisCylinder) : Prop :=
  valid_axis (AxisCylinder.cartesian_axis c) /\ 0 < AxisCylinder.radius c.

(** A call of [shift] or [stretch]. *)
Inductive transform : Type :=
| Shift (vector : Vec3)
| Stretch (vector : Vec3).


Definition transform_cylinder (t : transform) : M AxisCylinder unit :=
  match t with
  | Shift v => AxisCylinder.shift v
  | Stretch v => AxisCylinder.stretch v
  end.

Definition transform_surface (t : transform) : M Surface unit :=
  match t with
  | Shift v => Surface.shift v
  | Stretch v => Surface.stretch v
  end.

(** A call inside [try: ... except: pass]: the caller goes on with the
    object as the call left it. *)
Definition attempt {S : Type} (m : M S unit) : M S unit :=
  fun s => (Return tt, snd (m s)).

(** Calls made one after the other. *)
Fixpoint sequence_ {S T : Type} (f : T -> M S unit) (ts : list T) : M S unit :=
  match ts with
  | [] => ret tt
  | t :: ts' => f t ;;; sequence_ f ts'
  end.

(** A region is an internal node. *)
Definition is_node (r : IRegion) : bool :=
  match r with
  | RegionLeaf _ _ _ => false
  | _ => true
  end.

(** The last non-empty string of a list, or [default] if there is none. *)
Definition last_nonempty (default : string) (values : list string) : string :=
  fold_left (fun acc v => if (v =? "")%string then acc else v) values default.

(** A transform of the surface at an address of the store. *)
Definition transform_at (op : nat * transform) : M heap unit :=
  Surface.at_address (fst op) (transform_surface (snd op)).


(** [Criticality()] with the default arguments. *)
Definition default_criticality : Criticality :=
  mkCriticality (mkICard true "criticality") 1000 (PyFloat 1) 30 130.

(** The four particle names. *)
Definition particle_name (s : string) : Prop :=
  s = "neutron" \/ s = "photon" \/ s = "electron" \/ s = "proton".

(** The particles an energy deposition tally takes: one of the four
    names or all, or a list of the four names. *)
Definition energy_particles (ps : particle_arg) : Prop :=
  match ps with
  | OneParticle s => particle_name s \/ s = "all"
  | ParticleList l => Forall particle_name l
  end.

(** The cards of a group, and the cards of a [cards] argument down to
    the groups, in the order they are written; lists nested deeper hold
    no card for a tally. *)
Definition group_cards (avg : list cards_arg) : list nat :=
  flat_map (fun a => match a with OneCard x => [x] | CardList _ => [] end) avg.

Definition flat_cards (cards : cards_arg) : list nat :=
  match cards with
  | OneCard c => [c]
  | CardList objs =>
      flat_map (fun obj => match obj with
                           | OneCard c => [c]
                           | CardList avg => group_cards avg
                           end) objs
  end.

(** An element of a list of cards as the docstrings have it: a card, or
    a group of cards to average over. *)
Inductive tally_item : Type :=
| Item (c : nat)
| Group (cs : list nat).

Definition item_arg (i : tally_item) : cards_arg :=
  match i with
  | Item c => OneCard c
  | Group cs => CardList (map OneCard cs)
  end.

(** A name between single quotes, and the text of one element. *)
Definition quoted (name_of : nat -> string) (c : nat) : string :=
  ("'" ++ name_of c ++ "'")%string.

Definition item_text (name_of : nat -> string) (union_type : string) (i : tally_item)
  : string :=
  match i with
  | Item c => quoted name_of c
  | Group cs => (union_type ++ " in " ++ String.concat ", " (map (quoted name_of) cs))%string
  end.

(** The word before the list of cards: the plural of the card type when
    the first element is a card, nothing when it is a group. *)
Definition cards_heading (card_type : string) (items : list tally_item) : string :=
  match items with
  | Item _ :: _ => (card_type ++ "s ")%string
  | _ => ""
  end.

(** The head of a tally comment for a single particle. *)
Definition tally_heading (title name p : string) : string :=
  (title ++ " tally '" ++ name ++ "' of " ++ p
   ++ (if (p =? "all")%string then "" else "s") ++ ": ")%string.

(** The surface flux tally of the docstring, [SurfaceFlux('fuel',
    'photon', [surfA, surfB, [surfB, surfC]], average=True)], with the
    three surfaces at the addresses 0, 1, 2, and their names. *)
Definition docstring_items : list tally_item := [Item 0; Item 1; Group [1; 2]%nat].

Definition docstring_flux : IAverageTally :=
  mkIAverageTally
    (mkICellSurfTally (mkITally (mkICard false "fuel") (OneParticle "photon"))
       (CardList (map item_arg docstring_items)) false)
    true.

Definition docstring_names (c : nat) : string :=
  match c with
  | O => "surfA"
  | S O => "surfB"
  | _ => "surfC"
  end.

(** ** Comparisons *)

Lemma py_ne_true (a b : Q) : py_ne a b = true <-> ~ a == b.
Proof.
  unfold py_ne. rewrite negb_true_iff.
  split.
  - intros H E. apply Qeq_bool_iff in E. congruence.
  - intros H. destruct (Qeq_bool a b) eqn:E; [|reflexivity].
    apply Qeq_bool_iff in E. contradiction.
Qed.

Lemma py_ne_false (a b : Q) : py_ne a b = false <-> a == b.
Proof.
  unfold py_ne. rewrite negb_false_iff. apply Qeq_bool_iff.
Qed.



Lemma py_le_true (a b : Q) : py_le a b = true <-> a <= b.
Proof. unfold py_le. apply Qle_bool_iff. Qed.

Lemma py_le_false (a b : Q) : py_le a b = false <-> b < a.
Proof.
  split; intros H.
  - apply Qnot_le_lt. intros L. apply py_le_true in L. congruence.
  - destruct (py_le a b) eqn:E; [|reflexivity].
    apply py_le_true in E. apply Qlt_not_le in H. contradiction.
Qed.

(** ** The naming contract *)

Lemma init_unique_returns (name : string) :
  ICard.init name true = Return {| _unique := true; _name := name |}.
Proof. reflexivity. Qed.

Lemma name_setter_unique (c : ICard) (value : string) :
  _unique c = true ->
  exists msg, ICard.name_setter value c = (Raise (Exc StandardError msg), c).
Proof.
  intros U. unfold ICard.name_setter, assign, ICard.name_check.
  rewrite U. eexists. reflexivity.
Qed.

Lemma name_setter_empty (c : ICard) :
  _unique c = false ->
  exists msg, ICard.name_setter "" c = (Raise (Exc ValueError msg), c).
Proof.
  intros U. unfold ICard.name_setter, assign, ICard.name_check.
  rewrite U. simpl. eexists. reflexivity.
Qed.

Lemma name_setter_stores (c : ICard) (value : string) :
  _unique c = false -> value <> "" ->
  ICard.name_setter value c = (Return tt, ICard.set__name value c).
Proof.
  intros U NE. unfold ICard.name_setter, assign, ICard.name_check.
  rewrite U. destruct (String.eqb_spec value ""); [contradiction|reflexivity].
Qed.

(** C7: renaming a card constructed as unique fails with the
    [StandardError] of the read-only name and the name stays what it
    was; giving a card that is not unique the empty name fails with the
    [ValueError] of the empty name; giving it any other name succeeds,
    and the [name] property then returns the new name. *)
Theorem ICard_name_setter_contract :
  (forall (n value : string) (c : ICard),
      ICard.init n true = Return c ->
      exists msg,
        ICard.name_setter value c = (Raise (Exc StandardError msg), c) /\
        ICard.name (snd (ICard.name_setter value c)) = n) /\
  (forall c : ICard,
      _unique c = false ->
      exists msg, ICard.name_setter "" c = (Raise (Exc ValueError msg), c)) /\
  (forall (c : ICard) (value : string),
      _unique c = false -> value <> "" ->
      exists c',
        ICard.name_setter value c = (Return tt, c') /\
        ICard.name c' = value /\ _unique c' = false).
Proof.
  split; [|split].
  - intros n value c I. rewrite init_unique_returns in I.
    injection I as <-.
    destruct (name_setter_unique {| _unique := true; _name := n |} value eq_refl)
      as [msg E].
    exists msg. rewrite E. split; reflexivity.
  - apply name_setter_empty.
  - intros c value U NE. exists (ICard.set__name value c).
    rewrite (name_setter_stores c value U NE).
    split; [reflexivity|]. split; [reflexivity|exact U].
Qed.

Lemma ICard_name_setter_contract_witness :
  (exists msg,
      ICard.name_setter "b" {| _unique := true; _name := "criticality" |}
      = (Raise (Exc StandardError msg), {| _unique := true; _name := "criticality" |})) /\
  (exists msg,
      ICard.name_setter "" {| _unique := false; _name := "a" |}
      = (Raise (Exc ValueError msg), {| _unique := false; _name := "a" |})) /\
  (exists c',
      ICard.name_setter "b" {| _unique := false; _name := "a" |} = (Return tt, c') /\
      ICard.name c' = "b" /\ _unique c' = false).
Proof.
  destruct ICard_name_setter_contract as [H1 [H2 H3]].
  split; [|split].
  - destruct (H1 "criticality" "b" _ eq_refl) as [msg [E _]].
    exists msg. exact E.
  - apply H2. reflexivity.
  - apply H3; [reflexivity|discriminate].
Defined.

(** C10: with [unique=True] the constructor stores the name as given,
    without the test of the setter, so the empty name gives a unique
    card whose name is empty; the constructor of a card that is not
    unique rejects the empty name with the setter's [ValueError]. *)
Theorem ICard_init_unique_skips_validation :
  (forall n : string,
      ICard.init n true = Return {| _unique := true; _name := n |}) /\
  (exists c,
      ICard.init "" true = Return c /\ ICard.name c = "" /\ _unique c = true) /\
  (exists msg, ICard.init "" false = Raise (Exc ValueError msg)) /\
  (forall n : string,
      n <> "" -> ICard.init n false = Return {| _unique := false; _name := n |}).
Proof.
  split; [reflexivity|]. split; [|split].
  - eexists. repeat split.
  - eexists. reflexivity.
  - intros n NE. unfold ICard.init, ICard.name_check. simpl.
    destruct (String.eqb_spec n ""); [contradiction|reflexivity].
Qed.

(** ** Axis cylinders *)

Lemma cartesian_axis_check_valid (value : pyval) (axis : string) :
  IAxisSurface.cartesian_axis_check value = Return axis -> valid_axis axis.
Proof.
  destruct value as [| b | q | s | n]; simpl; try discriminate.
  destruct (String.eqb_spec (lower s) "x") as [Ex|_]; simpl.
  - intros H. injection H as <-. left. exact Ex.
  - destruct (String.eqb_spec (lower s) "y") as [Ey|_]; simpl.
    + intros H. injection H as <-. right. left. exact Ey.
    + destruct (String.eqb_spec (lower s) "z") as [Ez|_]; simpl.
      * intros H. injection H as <-. right. right. exact Ez.
      * discriminate.
Qed.

(** The constructor establishes what the statements below assume of a
    cylinder: a valid axis letter and a positive radius. *)
Lemma AxisCylinder_init_invariant (n : string) (axis : pyval) (r : Q)
  (refl white : pyval) (c : AxisCylinder) :
  AxisCylinder.init n axis r refl white = Return c ->
  valid_axis (AxisCylinder.cartesian_axis c) /\ 0 < AxisCylinder.radius c /\
  AxisCylinder.radius c = r.
Proof.
  unfold AxisCylinder.init, IAxisSurface.init.
  destruct (ISurface.init n refl white) as [base|e]; simpl; [|discriminate].
  destruct (IAxisSurface.cartesian_axis_check axis) as [a|e] eqn:A; simpl;
    [|discriminate].
  unfold AxisCylinder.radius_check.
  destruct (py_le r 0) eqn:L; simpl; [discriminate|].
  intros H. injection H as <-. simpl.
  split; [exact (cartesian_axis_check_valid _ _ A)|].
  split; [apply py_le_false; exact L|reflexivity].
Qed.

(** On a cylinder with a valid axis, [shift] writes nothing and raises
    exactly when the flag was set by the block of that axis. *)
Lemma AxisCylinder_shift_eval (c : AxisCylinder) (v : Vec3) :
  valid_axis (AxisCylinder.cartesian_axis c) ->
  AxisCylinder.shift v c =
  (if py_ne (fst (off_axis (AxisCylinder.cartesian_axis c) v)) 0
      || py_ne (snd (off_axis (AxisCylinder.cartesian_axis c) v)) 0
   then Raise (Exc ValueError AxisCylinder.shift_msg) else Return tt, c).
Proof.
  intros V. unfold AxisCylinder.shift, bind, gets, ret, raise.
  destruct V as [E|[E|E]]; rewrite E; simpl;
    match goal with
    | |- context [py_ne ?a 0 || py_ne ?b 0] =>
        destruct (py_ne a 0 || py_ne b 0); reflexivity
    end.
Qed.

(** C4: on any cylinder (its axis being one of x, y, z), [shift] raises
    if and only if a component of the vector perpendicular to the axis
    is not zero; whether it raises or returns, the object is left as it
    was, so radius and axis are unchanged. *)
Theorem AxisCylinder_shift_contract (c : AxisCylinder) (v : Vec3) :
  valid_axis (AxisCylinder.cartesian_axis c) ->
  ((exists e, fst (AxisCylinder.shift v c) = Raise e) <->
   (~ fst (off_axis (AxisCylinder.cartesian_axis c) v) == 0 \/
    ~ snd (off_axis (AxisCylinder.cartesian_axis c) v) == 0)) /\
  (fst (AxisCylinder.shift v c) = Raise (Exc ValueError AxisCylinder.shift_msg) \/
   fst (AxisCylinder.shift v c) = Return tt) /\
  snd (AxisCylinder.shift v c) = c /\
  AxisCylinder.radius (snd (AxisCylinder.shift v c)) = AxisCylinder.radius c /\
  AxisCylinder.cartesian_axis (snd (AxisCylinder.shift v c))
  = AxisCylinder.cartesian_axis c.
Proof.
  intros V. rewrite (AxisCylinder_shift_eval c v V). simpl.
  split; [|split; [|repeat split]].
  - destruct (py_ne (fst (off_axis (AxisCylinder.cartesian_axis c) v)) 0) eqn:P;
      simpl.
    + split; [|intros _; eexists; reflexivity].
      intros _. left. apply py_ne_true. exact P.
    + destruct (py_ne (snd (off_axis (AxisCylinder.cartesian_axis c) v)) 0) eqn:R.
      * split; [|intros _; eexists; reflexivity].
        intros _. right. apply py_ne_true. exact R.
      * apply py_ne_false in P. apply py_ne_false in R.
        split; [intros [e H]; discriminate|].
        intros [H|H]; contradiction.
  - destruct (_ || _); [left|right]; reflexivity.
Qed.

Lemma mycyl_constructed :
  AxisCylinder.init "mycyl" (PyStr "Z") (4 # 10) PyNone PyNone = Return mycyl.
Proof. reflexivity. Qed.

Lemma AxisCylinder_shift_contract_witness :
  valid_axis (AxisCylinder.cartesian_axis mycyl) /\
  snd (AxisCylinder.shift (mkVec3 3 0 0) mycyl) = mycyl.
Proof.
  split.
  - right. right. reflexivity.
  - apply (AxisCylinder_shift_contract mycyl (mkVec3 3 0 0)).
    right. right. reflexivity.
Defined.

(** On a cylinder with a valid axis, [stretch] is decided by the two
    perpendicular components alone: unequal, it raises at the end and
    nothing was written; equal and not zero, the product goes through
    the radius setter; zero, nothing happens. *)
Lemma AxisCylinder_stretch_eval (c : AxisCylinder) (v : Vec3) :
  valid_axis (AxisCylinder.cartesian_axis c) ->
  AxisCylinder.stretch v c =
  if py_ne (fst (off_axis (AxisCylinder.cartesian_axis c) v))
           (snd (off_axis (AxisCylinder.cartesian_axis c) v))
  then (Raise (Exc ValueError AxisCylinder.stretch_msg), c)
  else if py_ne (fst (off_axis (AxisCylinder.cartesian_axis c) v)) 0
  then AxisCylinder.radius_setter
         (AxisCylinder.radius c * fst (off_axis (AxisCylinder.cartesian_axis c) v)) c
  else (Return tt, c).
Proof.
  intros V. destruct c as [[base axis] r].
  unfold AxisCylinder.cartesian_axis, IAxisSurface.cartesian_axis in *.
  simpl in V. simpl.
  unfold AxisCylinder.stretch, AxisCylinder.radius_imul, AxisCylinder.radius_setter,
    AxisCylinder.radius_check, assign, bind, gets, ret, raise.
  destruct V as [E|[E|E]]; subst axis; simpl;
    match goal with
    | |- context [if py_ne ?a ?b then _ else if py_ne ?a 0 then _ else _] =>
        destruct (py_ne a b); [reflexivity|];
        destruct (py_ne a 0); [|reflexivity];
        unfold AxisCylinder.radius; simpl;
        match goal with
        | |- context [py_le ?x 0] => destruct (py_le x 0); reflexivity
        end
    end.
Qed.

(** A common negative factor: the product is not positive, the radius
    setter raises, and the cylinder is as it was. *)
Lemma AxisCylinder_stretch_negative_raises (c : AxisCylinder) (v : Vec3) :
  valid_axis (AxisCylinder.cartesian_axis c) ->
  0 < AxisCylinder.radius c ->
  fst (off_axis (AxisCylinder.cartesian_axis c) v)
    == snd (off_axis (AxisCylinder.cartesian_axis c) v) ->
  fst (off_axis (AxisCylinder.cartesian_axis c) v) < 0 ->
  AxisCylinder.stretch v c
  = (Raise (Exc ValueError
       "The ``radius`` property must be positive. User provided %.4f."), c).
Proof.
  intros V R EQ NEG. rewrite (AxisCylinder_stretch_eval c v V).
  apply py_ne_false in EQ. rewrite EQ.
  assert (NZ : py_ne (fst (off_axis (AxisCylinder.cartesian_axis c) v)) 0 = true).
  { apply py_ne_true. intros Z. rewrite Z in NEG. apply (Qlt_irrefl 0 NEG). }
  rewrite NZ.
  unfold AxisCylinder.radius_setter, assign, AxisCylinder.radius_check.
  assert (L : py_le (AxisCylinder.radius c
                     * fst (off_axis (AxisCylinder.cartesian_axis c) v)) 0 = true).
  { apply py_le_true. nra. }
  rewrite L. reflexivity.
Qed.



Lemma cyl_c_constructed :
  AxisCylinder.init "c" (PyStr "z") 1 PyNone PyNone = Return cyl_c.
Proof. reflexivity. Qed.


(** ** Parallelepipeds *)











Lemma mypp_constructed :
  Parallelepiped.init "mypp" 0 4 (-2) 2 (-3) 6 (PyBool false) (PyBool false)
  = Return mypp.
Proof. reflexivity. Qed.

Lemma mypp_valid : valid_bounds mypp.
Proof. unfold valid_bounds. simpl. repeat split; discriminate. Qed.


(** The reflection of the docstring: [pp.stretch([0, 0, -1])] turns
    [0, 4] x [-2, 2] x [-3, 6] into [0, 4] x [-2, 2] x [-6, 3]. *)
Example mypp_reflected :
  Parallelepiped.stretch (mkVec3 0 0 (-1)) mypp
  = (Return tt,
     mkParallelepiped (Parallelepiped_base mypp) (0, 4) (-2, 2) (-6, 3)).
Proof. reflexivity. Qed.

(** ** Region comments *)

Lemma string_append_assoc (s t u : string) : ((s ++ t) ++ u = s ++ (t ++ u))%string.
Proof.
  induction s as [|a s IH]; [reflexivity|].
  change (String a ((s ++ t) ++ u) = String a (s ++ (t ++ u)))%string.
  f_equal. exact IH.
Qed.

Lemma IRegionBool_comment_and (l r : string) :
  IRegion.IRegionBool_comment l r "&" = ("(" ++ l ++ " & " ++ r ++ ")")%string.
Proof.
  unfold IRegion.IRegionBool_comment.
  rewrite !string_append_assoc. reflexivity.
Qed.

Lemma IRegionBool_comment_or (l r : string) :
  IRegion.IRegionBool_comment l r "|" = ("(" ++ l ++ " | " ++ r ++ ")")%string.
Proof.
  unfold IRegion.IRegionBool_comment.
  rewrite !string_append_assoc. reflexivity.
Qed.

Lemma comment_total (h : heap) (r : IRegion) :
  allocated h r -> exists s, IRegion.comment h r = Some s.
Proof.
  induction r as [card l sense | card a IHa b IHb | card a IHa b IHb]; simpl.
  - intros [s E]. rewrite E. eexists. reflexivity.
  - intros [Aa Ab]. destruct (IHa Aa) as [sa Ea]. destruct (IHb Ab) as [sb Eb].
    rewrite Ea, Eb. eexists. reflexivity.
  - intros [Aa Ab]. destruct (IHa Aa) as [sa Ea]. destruct (IHb Ab) as [sb Eb].
    rewrite Ea, Eb. eexists. reflexivity.
Qed.

(** C6: the comment of a leaf over a surface named [s] is [+s] for the
    positive sense and [-s] for the negative one; the comment of an
    intersection (a union) is an opening parenthesis, the comment of the
    left child, [ & ] ([ | ]), the comment of the right child and a
    closing parenthesis; and [comment()] returns a string on every
    region whose leaves refer to surfaces of the store. *)
Theorem IRegion_comment_contract (h : heap) :
  (forall (card : ICard) (l : nat) (s : Surface),
      h !! l = Some s ->
      IRegion.comment h (RegionLeaf card l true) = Some ("+" ++ Surface.name s)%string /\
      IRegion.comment h (RegionLeaf card l false) = Some ("-" ++ Surface.name s)%string) /\
  (forall (card : ICard) (a b : IRegion) (ca cb : string),
      IRegion.comment h a = Some ca -> IRegion.comment h b = Some cb ->
      IRegion.comment h (RegionAnd card a b)
      = Some ("(" ++ ca ++ " & " ++ cb ++ ")")%string /\
      IRegion.comment h (RegionOr card a b)
      = Some ("(" ++ ca ++ " | " ++ cb ++ ")")%string) /\
  (forall r : IRegion, allocated h r -> exists s, IRegion.comment h r = Some s).
Proof.
  split; [|split].
  - intros card l s E. simpl. rewrite E. split; reflexivity.
  - intros card a b ca cb Ea Eb. simpl. rewrite Ea, Eb.
    rewrite IRegionBool_comment_and, IRegionBool_comment_or.
    split; reflexivity.
  - apply comment_total.
Qed.

Lemma IRegion_comment_contract_witness :
  IRegion.comment store_s1_c (RegionLeaf (mkICard false "<Empty>") 0 true)
  = Some "+s1" /\
  IRegion.comment store_s1_c (RegionLeaf (mkICard false "<Empty>") 1 false)
  = Some "-c".
Proof.
  split.
  - apply (proj1 (IRegion_comment_contract store_s1_c)
             (mkICard false "<Empty>") 0%nat (SurfPlane plane_s1) eq_refl).
  - apply (proj1 (IRegion_comment_contract store_s1_c)
             (mkICard false "<Empty>") 1%nat (SurfCylinder cyl_c) eq_refl).
Defined.

(** A whole expression: [(s1.pos & c.neg) | s1.pos]. *)
Example comment_nested :
  (a <~ IRegion.pos 0 ;;
   b <~ IRegion.neg 1 ;;
   ab <~ IRegion.intersect a b ;;
   r <~ IRegion.union ab a ;;
   Return (IRegion.comment store_s1_c r))
  = Return (Some "((+s1 & -c) | +s1)").
Proof. reflexivity. Qed.

(** ** Walking a region *)

Lemma regions_constructed :
  IRegion.pos 0 = Return leaf_a /\ IRegion.neg 1 = Return leaf_b /\
  IRegion.pos 2 = Return leaf_c /\
  IRegion.intersect leaf_a leaf_b = Return a_and_b /\
  IRegion.intersect a_and_b leaf_c = Return ab_and_c /\
  IRegion.intersect leaf_b leaf_c = Return b_and_c /\
  IRegion.intersect leaf_a b_and_c = Return a_and_bc.
Proof. repeat split. Qed.

Lemma bind_ret_l {S A B : Type} (a : A) (k : A -> M S B) (s : S) :
  bind (ret a) k s = k a s.
Proof. reflexivity. Qed.

Lemma bind_assoc {S A B C : Type} (m : M S A) (k : A -> M S B) (k' : B -> M S C)
  (s : S) :
  bind (bind m k) k' s = bind m (fun a => bind (k a) k') s.
Proof.
  unfold bind. destruct (m s) as [[a|e] s']; reflexivity.
Qed.

Lemma bind_ext {S A B : Type} (m : M S A) (k k' : A -> M S B) (s : S) :
  (forall a s', k a s' = k' a s') -> bind m k s = bind m k' s.
Proof.
  intros E. unfold bind. destruct (m s) as [[a|e] s']; [apply E|reflexivity].
Qed.

Lemma visit_each_app {R W : Type} (lf : bound_method R W) (xs ys : list IRegion)
  (w : W) :
  IRegion.visit_each lf (xs ++ ys)%list w
  = bind (IRegion.visit_each lf xs) (fun _ => IRegion.visit_each lf ys) w.
Proof.
  revert w. induction xs as [|x xs IH]; intros w; simpl.
  - reflexivity.
  - rewrite bind_assoc. apply bind_ext. intros _ w'. apply IH.
Qed.

(** Without combinator visitors an internal node is its left walk
    followed by its right walk. *)
Lemma walk_node_plain {R W : Type} (lf : bound_method R W) (l r : IRegion) (w : W) :
  bind (IRegion.walk l lf None None)
    (fun _ => bind (ret tt) (fun _ => bind (ret tt)
       (fun _ => IRegion.walk r lf None None))) w
  = bind (IRegion.walk l lf None None) (fun _ => IRegion.walk r lf None None) w.
Proof. reflexivity. Qed.

(** With both combinator visitors absent, [walk] calls the leaf visitor
    on the leaves from left to right, and does nothing else. *)
Lemma walk_visits_leaves {R W : Type} (lf : bound_method R W) (r : IRegion) (w : W) :
  IRegion.walk r lf None None w = IRegion.visit_each lf (IRegion.leaves r) w.
Proof.
  revert w.
  induction r as [card l sense | card a IHa b IHb | card a IHa b IHb]; intros w.
  - simpl. unfold bind, ret.
    destruct (im_func lf (TheInstance (im_self lf)) (RegionLeaf card l sense) w)
      as [[[]|e] w']; reflexivity.
  - simpl. rewrite visit_each_app, walk_node_plain.
    unfold bind. rewrite IHa.
    destruct (IRegion.visit_each lf (IRegion.leaves a) w) as [[u|e] w'];
      [apply IHb|reflexivity].
  - simpl. rewrite visit_each_app, walk_node_plain.
    unfold bind. rewrite IHa.
    destruct (IRegion.visit_each lf (IRegion.leaves a) w) as [[u|e] w'];
      [apply IHb|reflexivity].
Qed.

(** Both groupings of three leaves are walked leaf by leaf, in order. *)
Example walk_three_leaves :
  IRegion.walk ab_and_c (logger "v") None None ([], [])
  = (Return tt, ([leaf_a; leaf_b; leaf_c], ["v:leaf"; "v:leaf"; "v:leaf"])) /\
  IRegion.walk a_and_bc (logger "v") None None ([], [])
  = (Return tt, ([leaf_a; leaf_b; leaf_c], ["v:leaf"; "v:leaf"; "v:leaf"])).
Proof. split; reflexivity. Qed.

(** A supplied [and_func] makes the walk of any internal node raise
    after its left subtree: [isinstance] is given the visitor where a
    class is expected.  Neither the visitor nor the right subtree runs. *)
Lemma walk_and_func_raises {R W : Type} (self l r : IRegion) (card : ICard)
  (lf f : bound_method R W) (orf : option (bound_method R W)) (w : W) :
  self = RegionAnd card l r \/ self = RegionOr card l r ->
  IRegion.walk self lf (Some f) orf w
  = match IRegion.walk l lf None None w with
    | (Return _, w') => (Raise (Exc TypeError IRegion.isinstance_msg), w')
    | (Raise e, w') => (Raise e, w')
    end.
Proof.
  intros [E|E]; subst self; simpl; unfold bind;
    destruct (IRegion.walk l lf None None w) as [[u|e] w']; reflexivity.
Qed.

Lemma walk_or_func_raises {R W : Type} (self l r : IRegion) (card : ICard)
  (lf f : bound_method R W) (w : W) :
  self = RegionAnd card l r \/ self = RegionOr card l r ->
  IRegion.walk self lf None (Some f) w
  = match IRegion.walk l lf None None w with
    | (Return _, w') => (Raise (Exc TypeError IRegion.isinstance_msg), w')
    | (Raise e, w') => (Raise e, w')
    end.
Proof.
  intros [E|E]; subst self; simpl; unfold bind;
    destruct (IRegion.walk l lf None None w) as [[u|e] w']; reflexivity.
Qed.

(** C2 at [a & b] with an [and_func]: the leaf visitor runs on [a],
    then the walk raises [TypeError]; the and-visitor is not invoked on
    the node and the leaf [b] is not visited.  The claim has the walk
    return after the three calls leaf [a], and-visitor, leaf [b]. *)
Theorem IRegion_walk_and_func_fails :
  IRegion.walk a_and_b (logger "leaf") (Some (logger "and")) None ([], [])
  = (Raise (Exc TypeError IRegion.isinstance_msg), ([leaf_a], ["leaf:leaf"])) /\
  IRegion.walk a_and_b (logger "leaf") (Some (logger "and")) None ([], [])
  <> (Return tt, ([leaf_a; a_and_b; leaf_b], ["leaf:leaf"; "and:and"; "leaf:leaf"])).
Proof. split; [reflexivity|discriminate]. Qed.

(** ** Transforming a region *)

(** [shift] and [stretch] of a region return at once and leave the
    store as it is, whatever the region and the vector. *)
Lemma IRegion_transforms_do_nothing (region : IRegion) (v : Vec3) (h : heap) :
  IRegion.shift region v h = (Return tt, h) /\
  IRegion.stretch region v h = (Return tt, h).
Proof. split; reflexivity. Qed.

(** Stretching the cylinder itself, at its address, does scale it. *)
Example surface_stretch_scales_c :
  fst (Surface.at_address 1 (Surface.stretch (mkVec3 2 2 0)) store_s1_c) = Return tt /\
  Surface.radius_at
    (snd (Surface.at_address 1 (Surface.stretch (mkVec3 2 2 0)) store_s1_c)) 1
  = Some (1 * 2).
Proof. split; reflexivity. Qed.

(** What the spec describes would scale it through the region too. *)
Example spec_stretch_scales_c :
  Surface.radius_at
    (snd (spec_stretch_every_leaf leaf_b (mkVec3 2 2 0) store_s1_c)) 1
  = Some (1 * 2).
Proof. reflexivity. Qed.

(** C1 at its own example: [c] is the unit cylinder along z, at
    address 1 of the store, and [region = c.neg].  After
    [region.stretch((2, 2, 0))] the radius of [c] is still 1, not 2; the
    comment of the region is [-c] before and after. *)
Theorem IRegion_stretch_leaves_radius :
  IRegion.neg 1 = Return leaf_b /\
  Surface.radius_at store_s1_c 1 = Some 1 /\
  fst (IRegion.stretch leaf_b (mkVec3 2 2 0) store_s1_c) = Return tt /\
  Surface.radius_at (snd (IRegion.stretch leaf_b (mkVec3 2 2 0) store_s1_c)) 1
  = Some 1 /\
  ~ 1 == 2 /\
  IRegion.comment store_s1_c leaf_b = Some "-c" /\
  IRegion.comment (snd (IRegion.stretch leaf_b (mkVec3 2 2 0) store_s1_c)) leaf_b
  = Some "-c".
Proof. repeat split. discriminate. Qed.

(** ** Boundary flags *)

(** The constructor refuses a surface that is both reflecting and white. *)
Lemma ISurface_init_rejects_both (n : string) :
  n <> "" ->
  ISurface.init n (PyBool true) (PyBool true)
  = Raise (Exc ValueError
      "The user set the surface to be reflecting AND white, but can only be neither or one of the two.").
Proof.
  intros NE. unfold ISurface.init, ICard.init, ICard.name_check. simpl.
  destruct (String.eqb_spec n ""); [contradiction|reflexivity].
Qed.

(** The setters test the type of the value and nothing else. *)
Lemma ISurface_setters_store (s : ISurface) (b : bool) :
  ISurface.reflecting_setter (PyBool b) s
  = (Return tt, ISurface.set__reflecting (PyBool b) s) /\
  ISurface.white_setter (PyBool b) s
  = (Return tt, ISurface.set__white (PyBool b) s).
Proof. split; reflexivity. Qed.

(** C8 at a white plane: [p = AxisPlane('s', 'x', 3, white=True)] is
    constructed, and [p.reflecting = True] then returns without an
    exception and leaves the surface both reflecting and white; likewise
    [p.white = True] on a plane constructed with [reflecting=True]. *)
Theorem ISurface_setters_allow_both_flags :
  (exists p s',
      AxisPlane.init "s" (PyStr "x") 3 PyNone (PyBool true) = Return p /\
      ISurface.reflecting_setter (PyBool true) (IAxisSurface_base (AxisPlane_base p))
      = (Return tt, s') /\
      truthy (ISurface.reflecting s') = true /\ truthy (ISurface.white s') = true) /\
  (exists p s',
      AxisPlane.init "s" (PyStr "x") 3 (PyBool true) PyNone = Return p /\
      ISurface.white_setter (PyBool true) (IAxisSurface_base (AxisPlane_base p))
      = (Return tt, s') /\
      truthy (ISurface.reflecting s') = true /\ truthy (ISurface.white s') = true).
Proof. split; do 2 eexists; repeat split. Qed.

(** ** Cell construction *)

Lemma density_units_name_unbound :
  Cell.load_global "density_units"
  = Raise (Exc NameError "global name '%s' is not defined").
Proof. reflexivity. Qed.

(** The setter raises before it looks at its argument. *)
Lemma density_units_check_raises (value : pyval) :
  Cell.density_units_check value
  = Raise (Exc NameError "global name '%s' is not defined").
Proof. reflexivity. Qed.

(** No argument list makes [Cell(...)] return a cell. *)
Lemma Cell_init_never_returns (n : string) (region : IRegion) (m : Material)
  (d : Q) (u : pyval) :
  exists e, Cell.init n region m d u = Raise e.
Proof.
  unfold Cell.init.
  destruct (Cell.CellVoid_init n region) as [base|e]; simpl; [|eexists; reflexivity].
  destruct (Cell.material_check m) as [m'|e]; simpl; eexists; reflexivity.
Qed.

(** C9 at an allowed unit: [Cell('fuel', c.neg, material named 'UO2',
    10, 'g/cm^3')] raises [NameError] in the [density_units] setter, and
    so does the same call with 'atoms/b/cm'; no cell is constructed and
    no unit is stored. *)
Theorem Cell_init_allowed_units_raise :
  Cell.init "fuel" leaf_b (mkMaterial "UO2") 10 (PyStr "g/cm^3")
  = Raise (Exc NameError "global name '%s' is not defined") /\
  Cell.init "fuel" leaf_b (mkMaterial "UO2") 10 (PyStr "atoms/b/cm")
  = Raise (Exc NameError "global name '%s' is not defined").
Proof. split; reflexivity. Qed.

(** ** Axis planes *)

Lemma AxisPlane_shift_eval (p : AxisPlane) (v : Vec3) :
  valid_axis (AxisPlane.cartesian_axis p) ->
  AxisPlane.shift v p
  = (Return tt,
     AxisPlane.set__position
       (AxisPlane.position p + on_axis (AxisPlane.cartesian_axis p) v) p).
Proof.
  intros V. destruct p as [[base axis] pos].
  unfold AxisPlane.cartesian_axis, IAxisSurface.cartesian_axis in *.
  simpl in V. destruct V as [E|[E|E]]; subst axis; reflexivity.
Qed.

Lemma AxisPlane_stretch_eval (p : AxisPlane) (v : Vec3) :
  valid_axis (AxisPlane.cartesian_axis p) ->
  AxisPlane.stretch v p
  = if py_ne (on_axis (AxisPlane.cartesian_axis p) v) 0
    then (Return tt,
          AxisPlane.set__position
            (AxisPlane.position p * on_axis (AxisPlane.cartesian_axis p) v) p)
    else (Return tt, p).
Proof.
  intros V. destruct p as [[base axis] pos].
  unfold AxisPlane.cartesian_axis, IAxisSurface.cartesian_axis in *.
  simpl in V. destruct V as [E|[E|E]]; subst axis;
    unfold AxisPlane.stretch, on_axis, bind, gets; simpl;
    match goal with
    | |- context [py_ne ?a 0] => destruct (py_ne a 0); reflexivity
    end.
Qed.

(** X1: on a plane (its axis one of x, y, z) [shift] never raises; it
    adds the component of the vector along the plane's axis to the
    position and changes nothing else, so the two other components have
    no effect. *)
Theorem AxisPlane_shift_contract (p : AxisPlane) (v : Vec3) :
  valid_axis (AxisPlane.cartesian_axis p) ->
  fst (AxisPlane.shift v p) = Return tt /\
  AxisPlane.position (snd (AxisPlane.shift v p))
  = AxisPlane.position p + on_axis (AxisPlane.cartesian_axis p) v /\
  AxisPlane_base (snd (AxisPlane.shift v p)) = AxisPlane_base p /\
  (forall w : Vec3,
      on_axis (AxisPlane.cartesian_axis p) w = on_axis (AxisPlane.cartesian_axis p) v ->
      AxisPlane.shift w p = AxisPlane.shift v p).
Proof.
  intros V. rewrite (AxisPlane_shift_eval p v V). simpl.
  repeat split. intros w E. rewrite (AxisPlane_shift_eval p w V), E. reflexivity.
Qed.

Lemma AxisPlane_shift_contract_witness :
  valid_axis (AxisPlane.cartesian_axis plane_s1) /\
  AxisPlane.position (snd (AxisPlane.shift (mkVec3 3 7 9) plane_s1)) = 3 + 3.
Proof.
  split.
  - left. reflexivity.
  - apply (AxisPlane_shift_contract plane_s1 (mkVec3 3 7 9)). left. reflexivity.
Defined.

(** X2: on a plane [stretch] never raises; a non-zero factor along the
    plane's axis multiplies the position, a zero factor leaves the plane
    as it is, and the two other factors have no effect. *)
Theorem AxisPlane_stretch_contract (p : AxisPlane) (v : Vec3) :
  valid_axis (AxisPlane.cartesian_axis p) ->
  fst (AxisPlane.stretch v p) = Return tt /\
  (~ on_axis (AxisPlane.cartesian_axis p) v == 0 ->
   AxisPlane.position (snd (AxisPlane.stretch v p))
   = AxisPlane.position p * on_axis (AxisPlane.cartesian_axis p) v) /\
  (on_axis (AxisPlane.cartesian_axis p) v == 0 -> snd (AxisPlane.stretch v p) = p) /\
  AxisPlane_base (snd (AxisPlane.stretch v p)) = AxisPlane_base p /\
  (forall w : Vec3,
      on_axis (AxisPlane.cartesian_axis p) w = on_axis (AxisPlane.cartesian_axis p) v ->
      AxisPlane.stretch w p = AxisPlane.stretch v p).
Proof.
  intros V. rewrite (AxisPlane_stretch_eval p v V).
  destruct (py_ne (on_axis (AxisPlane.cartesian_axis p) v) 0) eqn:NZ; simpl.
  - apply py_ne_true in NZ.
    split; [reflexivity|]. split; [reflexivity|]. split; [contradiction|].
    split; [reflexivity|].
    intros w E. rewrite (AxisPlane_stretch_eval p w V), E.
    apply py_ne_true in NZ. rewrite NZ. reflexivity.
  - apply py_ne_false in NZ.
    split; [reflexivity|]. split; [contradiction|]. split; [reflexivity|].
    split; [reflexivity|].
    intros w E. rewrite (AxisPlane_stretch_eval p w V), E.
    apply py_ne_false in NZ. rewrite NZ. reflexivity.
Qed.

Lemma AxisPlane_stretch_contract_witness :
  valid_axis (AxisPlane.cartesian_axis plane_s1) /\
  fst (AxisPlane.stretch (mkVec3 3 0 0) plane_s1) = Return tt.
Proof.
  split.
  - left. reflexivity.
  - apply (AxisPlane_stretch_contract plane_s1 (mkVec3 3 0 0)). left. reflexivity.
Defined.



(** ** Construction of surfaces *)

Lemma ICard_init_plain (n : string) (c : ICard) :
  ICard.init n false = Return c <-> n <> "" /\ c = mkICard false n.
Proof.
  unfold ICard.init, ICard.name_check. simpl.
  destruct (String.eqb_spec n "") as [E|NE]; simpl.
  - split; [discriminate|]. intros [H _]. contradiction.
  - split.
    + intros H. injection H as <-. split; [exact NE|reflexivity].
    + intros [_ ->]. reflexivity.
Qed.




(** ** Moving and scaling boxes *)












(** Two reflections of the box of the docstring give its bounds back. *)
Example mypp_reflected_twice :
  snd ((Parallelepiped.stretch (mkVec3 (-1) (-1) (-1)) ;;;
        Parallelepiped.stretch (mkVec3 (-1) (-1) (-1))) mypp)
  = mkParallelepiped (Parallelepiped_base mypp) (0, 4) (-2, 2) (-3, 6).
Proof. reflexivity. Qed.

(** ** The axis letter *)

Lemma lower_empty (s : string) : lower s = "" -> s = "".
Proof. destruct s; [reflexivity|discriminate]. Qed.

Lemma lower_ascii_x (c : ascii) :
  lower_ascii c = "x"%char -> c = "x"%char \/ c = "X"%char.
Proof.
  destruct c as [[] [] [] [] [] [] [] []]; intros H; cbv in H;
    try discriminate; auto.
Qed.

Lemma lower_ascii_y (c : ascii) :
  lower_ascii c = "y"%char -> c = "y"%char \/ c = "Y"%char.
Proof.
  destruct c as [[] [] [] [] [] [] [] []]; intros H; cbv in H;
    try discriminate; auto.
Qed.

Lemma lower_ascii_z (c : ascii) :
  lower_ascii c = "z"%char -> c = "z"%char \/ c = "Z"%char.
Proof.
  destruct c as [[] [] [] [] [] [] [] []]; intros H; cbv in H;
    try discriminate; auto.
Qed.

Lemma lower_is_axis (s : string) :
  valid_axis (lower s) <-> axis_letter s.
Proof.
  unfold valid_axis, axis_letter. split.
  - destruct s as [|c s]; simpl.
    + intros [H|[H|H]]; discriminate.
    + intros [H|[H|H]]; injection H as Hc Hs; apply lower_empty in Hs; subst s.
      * destruct (lower_ascii_x c Hc) as [-> | ->]; auto.
      * destruct (lower_ascii_y c Hc) as [-> | ->]; auto 6.
      * destruct (lower_ascii_z c Hc) as [-> | ->]; auto 7.
  - intros [H|[H|[H|[H|[H|H]]]]]; subst s; cbv; auto.
Qed.

(** The axis setter's test: it returns exactly on the six letters, and
    what it returns is the lower-case letter. *)
Lemma cartesian_axis_check_spec (value : pyval) (a : string) :
  IAxisSurface.cartesian_axis_check value = Return a <->
  exists s, value = PyStr s /\ axis_letter s /\ a = lower s.
Proof.
  split.
  - intros H. pose proof (cartesian_axis_check_valid _ _ H) as V.
    destruct value as [| b | q | s | n]; simpl in H; try discriminate.
    destruct (negb (lower s =? "x")%string && negb (lower s =? "y")%string
              && negb (lower s =? "z")%string); [discriminate|].
    injection H as <-. exists s. split; [reflexivity|].
    split; [apply lower_is_axis; exact V|reflexivity].
  - intros (s & -> & L & ->). apply lower_is_axis in L. simpl.
    destruct L as [E|[E|E]]; rewrite E; reflexivity.
Qed.

Lemma cartesian_axis_check_rejects (value : pyval) :
  ~ (exists s, value = PyStr s /\ axis_letter s) ->
  exists m, IAxisSurface.cartesian_axis_check value = Raise (Exc ValueError m).
Proof.
  intros N.
  destruct (IAxisSurface.cartesian_axis_check value) as [a|e] eqn:C.
  - apply cartesian_axis_check_spec in C. destruct C as (s & E & L & _).
    destruct N. exists s. split; assumption.
  - destruct value as [| b | q | s | n]; simpl in C;
      try (injection C as <-; eexists; reflexivity).
    destruct (negb (lower s =? "x")%string && negb (lower s =? "y")%string
              && negb (lower s =? "z")%string); [|discriminate].
    injection C as <-. eexists. reflexivity.
Qed.

(** X10: the [cartesian_axis] setter accepts exactly the strings x, X,
    y, Y, z, Z and stores the lower-case letter, leaving the rest of the
    surface as it is; for any other value, a string or not, it raises
    [ValueError] and the axis is unchanged. *)
Theorem cartesian_axis_setter_accepts (value : pyval) (self : IAxisSurface) :
  (forall s : string,
      value = PyStr s -> axis_letter s ->
      IAxisSurface.cartesian_axis_setter value self
      = (Return tt, mkIAxisSurface (IAxisSurface_base self) (lower s)) /\
      valid_axis (lower s)) /\
  (~ (exists s, value = PyStr s /\ axis_letter s) ->
   exists m,
     IAxisSurface.cartesian_axis_setter value self = (Raise (Exc ValueError m), self)).
Proof.
  unfold IAxisSurface.cartesian_axis_setter, assign. split.
  - intros s -> L.
    rewrite (proj2 (cartesian_axis_check_spec (PyStr s) (lower s))).
    + split; [reflexivity|]. apply lower_is_axis. exact L.
    + exists s. repeat split. exact L.
  - intros N. destruct (cartesian_axis_check_rejects value N) as [m E].
    rewrite E. exists m. reflexivity.
Qed.

Lemma cartesian_axis_setter_accepts_witness :
  IAxisSurface.cartesian_axis_setter (PyStr "Y") (AxisCylinder_base mycyl)
  = (Return tt, mkIAxisSurface (IAxisSurface_base (AxisCylinder_base mycyl)) (lower "Y")) /\
  valid_axis (lower "Y").
Proof.
  apply (proj1 (cartesian_axis_setter_accepts (PyStr "Y") (AxisCylinder_base mycyl))
           "Y" eq_refl).
  unfold axis_letter. auto.
Defined.


(** ** The invariant of a cylinder *)

Lemma cylinder_shift_keeps (c : AxisCylinder) (v : Vec3) :
  valid_cylinder c -> snd (AxisCylinder.shift v c) = c.
Proof.
  intros [V _]. rewrite (AxisCylinder_shift_eval c v V). reflexivity.
Qed.

Lemma cylinder_stretch_keeps (c : AxisCylinder) (v : Vec3) :
  valid_cylinder c ->
  valid_cylinder (snd (AxisCylinder.stretch v c)) /\
  AxisCylinder_base (snd (AxisCylinder.stretch v c)) = AxisCylinder_base c.
Proof.
  intros [V R]. rewrite (AxisCylinder_stretch_eval c v V).
  destruct (py_ne _ _); [split; [split; assumption|reflexivity]|].
  destruct (py_ne _ 0); [|split; [split; assumption|reflexivity]].
  unfold AxisCylinder.radius_setter, assign, AxisCylinder.radius_check.
  destruct (py_le _ 0) eqn:L; simpl; [split; [split; assumption|reflexivity]|].
  apply py_le_false in L.
  split; [split; [exact V|exact L]|reflexivity].
Qed.

Lemma sequence_attempt_cons {S T : Type} (f : T -> M S unit) (t : T) (ts : list T)
  (s : S) :
  sequence_ (fun t => attempt (f t)) (t :: ts) s
  = sequence_ (fun t => attempt (f t)) ts (snd (f t s)).
Proof. reflexivity. Qed.

(** X8: a cylinder keeps a valid axis and a positive radius through
    any sequence of attempted shifts and stretches, whether the single
    calls return or raise; name, flags and axis are never changed. *)
Theorem AxisCylinder_transforms_keep_invariant (ts : list transform) (c : AxisCylinder) :
  valid_cylinder c ->
  valid_cylinder
    (snd (sequence_ (fun t => attempt (transform_cylinder t)) ts c)) /\
  AxisCylinder_base (snd (sequence_ (fun t => attempt (transform_cylinder t)) ts c))
  = AxisCylinder_base c.
Proof.
  revert c. induction ts as [|t ts IH]; intros c V.
  - split; [exact V|reflexivity].
  - rewrite sequence_attempt_cons.
    assert (K : valid_cylinder (snd (transform_cylinder t c)) /\
                AxisCylinder_base (snd (transform_cylinder t c))
                = AxisCylinder_base c).
    { destruct t as [v|v]; simpl.
      - rewrite (cylinder_shift_keeps c v V). split; [exact V|reflexivity].
      - apply cylinder_stretch_keeps. exact V. }
    destruct K as [V1 B1]. destruct (IH _ V1) as [V2 B2].
    split; [exact V2|]. rewrite B2. exact B1.
Qed.

Lemma AxisCylinder_transforms_keep_invariant_witness :
  valid_cylinder mycyl /\
  valid_cylinder
    (snd (sequence_ (fun t => attempt (transform_cylinder t))
            [Stretch (mkVec3 3 3 0); Stretch (mkVec3 (-1) (-1) 1);
             Shift (mkVec3 1 0 0); Stretch (mkVec3 2 3 1)] mycyl)).
Proof.
  assert (V : valid_cylinder mycyl).
  { split; [right; right; reflexivity|reflexivity]. }
  split; [exact V|].
  apply (AxisCylinder_transforms_keep_invariant _ mycyl V).
Defined.





(** ** Comments and transforms *)

Lemma cylinder_shift_writes_nothing (c : AxisCylinder) (v : Vec3) :
  snd (AxisCylinder.shift v c) = c.
Proof.
  unfold AxisCylinder.shift, bind, gets, raise, ret. cbv beta zeta.
  match goal with
  | |- snd ((if ?b then _ else _) _) = _ => destruct b; reflexivity
  end.
Qed.

Lemma cylinder_stretch_keeps_base (c : AxisCylinder) (v : Vec3) :
  AxisCylinder_base (snd (AxisCylinder.stretch v c)) = AxisCylinder_base c.
Proof.
  destruct c as [[base axis] r].
  unfold AxisCylinder.stretch, AxisCylinder.radius_imul, AxisCylinder.radius_setter,
    AxisCylinder.radius_check, assign, bind, gets, raise, ret,
    AxisCylinder.cartesian_axis, IAxisSurface.cartesian_axis, AxisCylinder.radius.
  simpl.
  repeat match goal with
         | |- context [if ?b then _ else _] => destruct b; simpl
         end; reflexivity.
Qed.

Lemma plane_transforms_keep_base (p : AxisPlane) (v : Vec3) :
  AxisPlane_base (snd (AxisPlane.shift v p)) = AxisPlane_base p /\
  AxisPlane_base (snd (AxisPlane.stretch v p)) = AxisPlane_base p.
Proof.
  destruct p as [[base axis] pos].
  unfold AxisPlane.shift, AxisPlane.stretch, AxisPlane.position_setter, modify,
    bind, gets, ret, AxisPlane.cartesian_axis, IAxisSurface.cartesian_axis.
  simpl. split;
  repeat match goal with
         | |- context [if ?b then _ else _] => destruct b; simpl
         end; reflexivity.
Qed.

Lemma box_transforms_keep_base (p : Parallelepiped) (v : Vec3) :
  Parallelepiped_base (snd (Parallelepiped.shift v p)) = Parallelepiped_base p /\
  Parallelepiped_base (snd (Parallelepiped.stretch v p)) = Parallelepiped_base p.
Proof.
  destruct p as [base xl yl zl].
  unfold Parallelepiped.shift, Parallelepiped.stretch,
    Parallelepiped.xlims_iadd, Parallelepiped.ylims_iadd, Parallelepiped.zlims_iadd,
    Parallelepiped.xlims_imul, Parallelepiped.ylims_imul, Parallelepiped.zlims_imul,
    Parallelepiped.xlims_setter, Parallelepiped.ylims_setter,
    Parallelepiped.zlims_setter, assign,
    Parallelepiped.xlims_check, Parallelepiped.ylims_check,
    Parallelepiped.zlims_check, bind, gets, modify, ret.
  simpl. split;
  repeat match goal with
         | |- context [if ?b then _ else _] => destruct b; simpl
         end; reflexivity.
Qed.

(** No transform of a surface changes its name, whether it returns or
    raises. *)
Lemma transform_keeps_name (t : transform) (s : Surface) :
  Surface.name (snd (transform_surface t s)) = Surface.name s.
Proof.
  destruct t as [v|v]; destruct s as [c|p|p]; simpl;
    unfold Surface.lift, AxisCylinder.name, AxisPlane.name, Parallelepiped.name; simpl.
  - rewrite cylinder_shift_writes_nothing. reflexivity.
  - rewrite (proj1 (plane_transforms_keep_base p v)). reflexivity.
  - rewrite (proj1 (box_transforms_keep_base p v)). reflexivity.
  - rewrite cylinder_stretch_keeps_base. reflexivity.
  - rewrite (proj2 (plane_transforms_keep_base p v)). reflexivity.
  - rewrite (proj2 (box_transforms_keep_base p v)). reflexivity.
Qed.

(** The comment of a region reads the store only for the names of the
    surfaces. *)
Lemma comment_reads_names (h1 h2 : heap) (r : IRegion) :
  (forall l : nat, Surface.name <$> (h1 !! l) = Surface.name <$> (h2 !! l)) ->
  IRegion.comment h1 r = IRegion.comment h2 r.
Proof.
  intros N. induction r as [card l sense | card a IHa b IHb | card a IHa b IHb];
    simpl.
  - specialize (N l).
    destruct (h1 !! l) as [s1|], (h2 !! l) as [s2|]; simpl in N;
      try discriminate; [|reflexivity].
    injection N as ->. reflexivity.
  - rewrite IHa, IHb. reflexivity.
  - rewrite IHa, IHb. reflexivity.
Qed.

Lemma transform_at_names (op : nat * transform) (h : heap) (l : nat) :
  Surface.name <$> (snd (transform_at op h) !! l) = Surface.name <$> (h !! l).
Proof.
  destruct op as [a t]. unfold transform_at, Surface.at_address. simpl.
  destruct (h !! a) as [s|] eqn:E; simpl; [|reflexivity].
  destruct (decide (a = l)) as [->|NE].
  - rewrite lookup_insert_eq, E. simpl. rewrite transform_keeps_name. reflexivity.
  - rewrite lookup_insert_ne by exact NE. reflexivity.
Qed.

(** X11: shifting and stretching surfaces never changes the comment of
    a region: after any sequence of attempted transforms of surfaces of
    the store, successful or not, every region has the comment it had. *)
Theorem comment_unchanged_by_transforms (ops : list (nat * transform)) (h : heap)
  (r : IRegion) :
  IRegion.comment (snd (sequence_ (fun op => attempt (transform_at op)) ops h)) r
  = IRegion.comment h r.
Proof.
  revert h. induction ops as [|op ops IH]; intros h.
  - reflexivity.
  - rewrite sequence_attempt_cons, IH.
    apply comment_reads_names. intros l. apply transform_at_names.
Qed.

(** The cylinder [c] is scaled where it lives, and the region over it
    still reads [-c]. *)
Example comment_after_stretch :
  Surface.radius_at (snd (transform_at (1%nat, Stretch (mkVec3 2 2 0)) store_s1_c)) 1
  = Some (1 * 2) /\
  IRegion.comment (snd (transform_at (1%nat, Stretch (mkVec3 2 2 0)) store_s1_c)) leaf_b
  = Some "-c".
Proof. split; reflexivity. Qed.

(** ** More on walking *)

(** X12: with a leaf visitor only, [walk] calls the visitor on the
    leaves of the region from left to right and stops at the first call
    that raises; so two regions with the same sequence of leaves, however
    they are grouped and whether built with [&] or [|], are walked alike. *)
Theorem IRegion_walk_leaf_order {R W : Type} (lf : bound_method R W) :
  (forall (r : IRegion) (w : W),
      IRegion.walk r lf None None w = IRegion.visit_each lf (IRegion.leaves r) w) /\
  (forall (r1 r2 : IRegion) (w : W),
      IRegion.leaves r1 = IRegion.leaves r2 ->
      IRegion.walk r1 lf None None w = IRegion.walk r2 lf None None w).
Proof.
  split.
  - intros r w. apply walk_visits_leaves.
  - intros r1 r2 w E. rewrite !walk_visits_leaves, E. reflexivity.
Qed.

Lemma IRegion_walk_leaf_order_witness :
  IRegion.walk ab_and_c (logger "v") None None ([], [])
  = IRegion.walk a_and_bc (logger "v") None None ([], []).
Proof.
  apply (proj2 (IRegion_walk_leaf_order (logger "v"))). reflexivity.
Defined.

(** X13: a combinator visitor passed to [walk] is never called: the
    outcome of the walk is the same whichever visitors are passed as
    [and_func] and [or_func], and on an internal node the walk does not
    return when one is passed. *)
Theorem IRegion_walk_ignores_combinator_visitors {R W : Type} (self : IRegion)
  (lf f f' : bound_method R W) (orf orf' : option (bound_method R W)) (w : W) :
  IRegion.walk self lf (Some f) orf w = IRegion.walk self lf (Some f') orf' w /\
  IRegion.walk self lf None (Some f) w = IRegion.walk self lf None (Some f') w /\
  (is_node self = true ->
   fst (IRegion.walk self lf (Some f) orf w) <> Return tt /\
   fst (IRegion.walk self lf None (Some f) w) <> Return tt).
Proof.
  destruct self as [card l sense | card a b | card a b].
  - split; [reflexivity|]. split; [reflexivity|]. discriminate.
  - rewrite !(walk_and_func_raises _ a b card) by (left; reflexivity).
    rewrite !(walk_or_func_raises _ a b card) by (left; reflexivity).
    split; [reflexivity|]. split; [reflexivity|]. intros _.
    destruct (IRegion.walk a lf None None w) as [[u|e] w']; split; discriminate.
  - rewrite !(walk_and_func_raises _ a b card) by (right; reflexivity).
    rewrite !(walk_or_func_raises _ a b card) by (right; reflexivity).
    split; [reflexivity|]. split; [reflexivity|]. intros _.
    destruct (IRegion.walk a lf None None w) as [[u|e] w']; split; discriminate.
Qed.

Lemma IRegion_walk_ignores_combinator_visitors_witness :
  is_node a_and_b = true /\
  fst (IRegion.walk a_and_b (logger "leaf") (Some (logger "and")) None ([], []))
  <> Return tt.
Proof.
  split; [reflexivity|].
  apply (IRegion_walk_ignores_combinator_visitors a_and_b (logger "leaf")
           (logger "and") (logger "and") None None ([], [])).
  reflexivity.
Defined.

(** ** Names of cards that are not unique *)

Lemma name_setter_step (c : ICard) (v : string) :
  _unique c = false ->
  snd (ICard.name_setter v c)
  = if (v =? "")%string then c else ICard.set__name v c.
Proof.
  intros U. unfold ICard.name_setter, assign, ICard.name_check. rewrite U.
  destruct (v =? "")%string; reflexivity.
Qed.

(** X15: a card that is not unique never has an empty name: the
    constructor rejects the empty name, and after any sequence of
    attempted renames the name is the last non-empty string that was
    assigned (the constructor's, if there was none), hence not empty. *)
Theorem ICard_name_never_empty (n : string) (c : ICard) (values : list string) :
  ICard.init n false = Return c ->
  ICard.name (snd (sequence_ (fun v => attempt (ICard.name_setter v)) values c))
  = last_nonempty n values /\
  ICard.name (snd (sequence_ (fun v => attempt (ICard.name_setter v)) values c))
  <> "".
Proof.
  intros I. apply ICard_init_plain in I. destruct I as [NE ->].
  assert (K : forall vs m, m <> "" ->
                ICard.name
                  (snd (sequence_ (fun v => attempt (ICard.name_setter v)) vs
                          (mkICard false m)))
                = last_nonempty m vs /\ last_nonempty m vs <> "").
  { induction vs as [|v vs IH]; intros m M.
    - split; [reflexivity|exact M].
    - rewrite sequence_attempt_cons, name_setter_step by reflexivity.
      unfold last_nonempty. simpl.
      destruct (String.eqb_spec v "") as [E|NV].
      + apply IH. exact M.
      + apply (IH v NV). }
  destruct (K values n NE) as [E L]. split; [exact E|]. rewrite E. exact L.
Qed.

Lemma ICard_name_never_empty_witness :
  ICard.name
    (snd (sequence_ (fun v => attempt (ICard.name_setter v)) ["b"; ""; "c"; ""]
            (mkICard false "a")))
  = last_nonempty "a" ["b"; ""; "c"; ""].
Proof.
  apply (ICard_name_never_empty "a" (mkICard false "a") ["b"; ""; "c"; ""]).
  reflexivity.
Defined.

(** ** Criticality sources *)

Lemma default_criticality_constructed :
  Criticality.init (PyInt 1000) (PyFloat 1) (PyInt 30) (PyInt 130)
  = Return default_criticality.
Proof. reflexivity. Qed.







(** ** Criticality points *)

Lemma points_loop_spec (value : list (list Q)) :
  (Forall (fun point => length point = 3%nat) value ->
   CriticalityPoints.points_loop value = Return tt) /\
  (~ Forall (fun point => length point = 3%nat) value ->
   exists m, CriticalityPoints.points_loop value = Raise (Exc ValueError m)).
Proof.
  induction value as [|point rest [IHok IHbad]]; simpl.
  - split; [reflexivity|]. intros N. destruct N. constructor.
  - destruct (Nat.eqb_spec (length point) 3%nat) as [E|NE]; simpl.
    + split.
      * intros F. apply IHok. inversion F; assumption.
      * intros N. apply IHbad. intros F. apply N. constructor; assumption.
    + split.
      * intros F. inversion F; contradiction.
      * intros _. eexists. reflexivity.
Qed.

(** X18: the source points are accepted exactly when every point has
    three components (the empty list of points among them): the
    constructor then returns the unique card named criticalitypoints
    holding the list, and the setter stores it; otherwise both raise
    [ValueError], and the setter leaves the points it had. *)
Theorem CriticalityPoints_accepts (value : list (list Q)) (self : CriticalityPoints) :
  (Forall (fun point => length point = 3%nat) value ->
   CriticalityPoints.init value
   = Return (mkCriticalityPoints (mkICard true "criticalitypoints") value) /\
   CriticalityPoints.points_setter value self
   = (Return tt, CriticalityPoints.set__points value self)) /\
  (~ Forall (fun point => length point = 3%nat) value ->
   exists m,
     CriticalityPoints.init value = Raise (Exc ValueError m) /\
     CriticalityPoints.points_setter value self = (Raise (Exc ValueError m), self)).
Proof.
  unfold CriticalityPoints.init, CriticalityPoints.points_setter, assign,
    CriticalityPoints.points_check.
  cbn [ICard.init obind].
  split; intros F.
  - rewrite (proj1 (points_loop_spec value) F). split; reflexivity.
  - destruct (proj2 (points_loop_spec value) F) as [m E].
    exists m. rewrite E. split; reflexivity.
Qed.

Lemma CriticalityPoints_accepts_witness :
  CriticalityPoints.init [[0; 0; 0]; [1; 2; 3]]
  = Return (mkCriticalityPoints (mkICard true "criticalitypoints")
              [[0; 0; 0]; [1; 2; 3]]) /\
  exists m, CriticalityPoints.init [[0; 0; 0]; [1; 2]] = Raise (Exc ValueError m).
Proof.
  split.
  - apply (proj1 (CriticalityPoints_accepts [[0; 0; 0]; [1; 2; 3]]
                    (mkCriticalityPoints (mkICard true "criticalitypoints") []))).
    repeat constructor.
  - destruct (proj2 (CriticalityPoints_accepts [[0; 0; 0]; [1; 2]]
                       (mkCriticalityPoints (mkICard true "criticalitypoints") [])))
      as (m & E & _).
    + intros F. inversion F as [|? ? _ F']. inversion F' as [|? ? L _]. discriminate.
    + exists m. exact E.
Defined.

(** ** The cards of a tally *)

Lemma existsb_eqb_In (x : nat) (l : list nat) :
  existsb (Nat.eqb x) l = true <-> In x l.
Proof.
  rewrite existsb_exists. split.
  - intros (y & I & E). apply Nat.eqb_eq in E. subst y. exact I.
  - intros I. exists x. split; [exact I|apply Nat.eqb_refl].
Qed.

Lemma add_if_absent_spec (acc : list nat) (x : nat) :
  (In x acc -> Tally.add_if_absent acc x = acc) /\
  (~ In x acc -> Tally.add_if_absent acc x = (acc ++ [x])%list).
Proof.
  unfold Tally.add_if_absent.
  destruct (existsb (Nat.eqb x) acc) eqn:E; simpl.
  - apply existsb_eqb_In in E. split; [reflexivity|contradiction].
  - split; [|reflexivity]. intros I. apply existsb_eqb_In in I. congruence.
Qed.

(** Adding the cards of a list one by one, each only if it is absent. *)
Lemma add_all_spec (xs acc : list nat) :
  List.NoDup acc ->
  List.NoDup (fold_left Tally.add_if_absent xs acc) /\
  (forall c, In c (fold_left Tally.add_if_absent xs acc) <-> In c acc \/ In c xs) /\
  (List.NoDup (acc ++ xs)%list -> fold_left Tally.add_if_absent xs acc = (acc ++ xs)%list).
Proof.
  revert acc. induction xs as [|x xs IH]; intros acc N; simpl.
  - split; [exact N|]. split; [intros c; tauto|].
    intros _. rewrite app_nil_r. reflexivity.
  - destruct (in_dec Nat.eq_dec x acc) as [I|NI].
    + rewrite (proj1 (add_if_absent_spec acc x) I).
      destruct (IH acc N) as (N' & M & F).
      split; [exact N'|]. split.
      * intros c. rewrite M. split; [tauto|].
        intros [H|[H|H]]; [left; exact H|subst c; left; exact I|right; exact H].
      * intros D. exfalso. apply List.NoDup_remove_2 in D. apply D.
        apply in_or_app. left. exact I.
    + rewrite (proj2 (add_if_absent_spec acc x) NI).
      assert (N1 : List.NoDup (acc ++ [x])%list).
      { apply (Permutation.Permutation_NoDup
                 (Permutation.Permutation_cons_append acc x)).
        constructor; assumption. }
      destruct (IH _ N1) as (N' & M & F).
      split; [exact N'|]. split.
      * intros c. rewrite M, in_app_iff. simpl. tauto.
      * intros D. rewrite F.
        -- rewrite <- List.app_assoc. reflexivity.
        -- rewrite <- List.app_assoc. exact D.
Qed.

Lemma group_fold_is_add_all (avg : list cards_arg) (acc : list nat) :
  fold_left
    (fun card_list avgobj =>
       match avgobj with
       | OneCard a => Tally.add_if_absent card_list a
       | CardList _ => card_list
       end) avg acc
  = fold_left Tally.add_if_absent (group_cards avg) acc.
Proof.
  revert acc. induction avg as [|a avg IH]; intros acc; [reflexivity|].
  simpl. rewrite IH. destruct a as [x|l]; reflexivity.
Qed.

Lemma cards_fold_is_add_all (objs : list cards_arg) (acc : list nat) :
  fold_left
    (fun card_list obj =>
       match obj with
       | CardList avg =>
           fold_left
             (fun card_list avgobj =>
                match avgobj with
                | OneCard a => Tally.add_if_absent card_list a
                | CardList _ => card_list
                end)
             avg card_list
       | OneCard c => Tally.add_if_absent card_list c
       end) objs acc
  = fold_left Tally.add_if_absent (flat_cards (CardList objs)) acc.
Proof.
  revert acc. induction objs as [|obj objs IH]; intros acc; [reflexivity|].
  simpl. rewrite IH. destruct obj as [c|avg]; simpl.
  - reflexivity.
  - rewrite fold_left_app, group_fold_is_add_all. reflexivity.
Qed.

Lemma unique_card_list_is_add_all (self : ICellSurfTally) :
  Tally._unique_card_list self
  = match _cards self with
    | OneCard c => [c]
    | CardList _ => fold_left Tally.add_if_absent (flat_cards (_cards self)) []
    end.
Proof.
  unfold Tally._unique_card_list. destruct (_cards self) as [c|objs]; [reflexivity|].
  apply cards_fold_is_add_all.
Qed.

(** X19: the list of cards of a tally holds each card once: every card
    written in the [cards] argument, alone, in the list or in a group of
    the list, is in the result, nothing else is, and no card is there
    twice; when no card is written twice the result is the cards in the
    order they are written. *)
Theorem unique_card_list_contract (self : ICellSurfTally) :
  List.NoDup (Tally._unique_card_list self) /\
  (forall c : nat,
      In c (Tally._unique_card_list self) <-> In c (flat_cards (_cards self))) /\
  (List.NoDup (flat_cards (_cards self)) ->
   Tally._unique_card_list self = flat_cards (_cards self)).
Proof.
  rewrite unique_card_list_is_add_all.
  destruct (_cards self) as [c|objs] eqn:E.
  - simpl. split; [repeat constructor; intros []|]. split; [tauto|reflexivity].
  - destruct (add_all_spec (flat_cards (CardList objs)) [] (List.NoDup_nil nat))
      as (N & M & F).
    split; [exact N|]. split.
    + intros c. rewrite M. simpl. tauto.
    + intros D. apply F. exact D.
Qed.

(** [tally = SurfaceFlux(.., [surfA, surfB, [surfB, surfC]])] of the
    docstring, with A, B, C at the addresses 0, 1, 2. *)
Example unique_card_list_docstring :
  Tally._unique_card_list
    (mkICellSurfTally (mkITally (mkICard false "fuel") (OneParticle "photon"))
       (CardList [OneCard 0; OneCard 1; CardList [OneCard 1; OneCard 2]]) false)
  = [0; 1; 2]%nat.
Proof. reflexivity. Qed.

(** ** The comment of a tally *)

Lemma string_append_nil_r (s : string) : (s ++ "")%string = s.
Proof.
  induction s as [|a s IH]; [reflexivity|].
  change (String a (s ++ "") = String a s)%string. f_equal. exact IH.
Qed.

Lemma concat_cons2 (sep x y : string) (l : list string) :
  String.concat sep (x :: y :: l) = (x ++ sep ++ String.concat sep (y :: l))%string.
Proof. reflexivity. Qed.

(** The loop over a group writes the quoted names with [, ] between
    them: the counter tells the last card from the others. *)
Lemma group_loop_join (name_of : nat -> string) (cs : list nat) :
  forall (k total : nat) (str : string),
    (k + length cs = total)%nat ->
    Tally.group_loop name_of total k (map OneCard cs) str
    = Ok (str ++ String.concat ", " (map (quoted name_of) cs))%string.
Proof.
  induction cs as [|c cs IH]; intros k total str L.
  - cbn. rewrite string_append_nil_r. reflexivity.
  - cbn [map Tally.group_loop]. fold (quoted name_of c).
    destruct cs as [|c' cs].
    + simpl in L.
      assert (F : (S k <? total)%nat = false) by (apply Nat.ltb_ge; lia).
      rewrite F. reflexivity.
    + assert (T : (S k <? total)%nat = true) by (apply Nat.ltb_lt; simpl in L; lia).
      rewrite T. rewrite IH by (simpl in *; lia).
      cbn [map]. rewrite concat_cons2, !string_append_assoc. reflexivity.
Qed.

Lemma cards_loop_join (name_of : nat -> string) (union_type : string)
  (items : list tally_item) :
  forall (k total : nat) (str : string),
    (k + length items = total)%nat ->
    Tally.cards_loop name_of union_type total k (map item_arg items) str
    = Ok (str ++ String.concat "; " (map (item_text name_of union_type) items))%string.
Proof.
  induction items as [|i items IH]; intros k total str L.
  - cbn. rewrite string_append_nil_r. reflexivity.
  - cbn [map Tally.cards_loop].
    assert (E : match item_arg i with
                | OneCard c => Ok (str ++ ("'" ++ name_of c ++ "'"))%string
                | CardList avg =>
                    Tally.group_loop name_of (length avg) 0 avg
                      (str ++ (union_type ++ " in "))%string
                end
                = Ok (str ++ item_text name_of union_type i)%string).
    { destruct i as [c|cs]; simpl.
      - reflexivity.
      - rewrite group_loop_join by (rewrite length_map; reflexivity).
        rewrite !string_append_assoc. reflexivity. }
    rewrite E.
    destruct items as [|i' items].
    + simpl in L.
      assert (F : (S k <? total)%nat = false) by (apply Nat.ltb_ge; lia).
      rewrite F. reflexivity.
    + assert (T : (S k <? total)%nat = true) by (apply Nat.ltb_lt; simpl in L; lia).
      rewrite T. rewrite IH by (simpl in *; lia).
      cbn [map]. rewrite concat_cons2, !string_append_assoc. reflexivity.
Qed.

Lemma ITally_comment_one_particle (title p : string) (self : ITally) :
  _particle self = OneParticle p ->
  Tally.ITally_comment title self = tally_heading title (Tally.name self) p.
Proof.
  intros E. unfold Tally.ITally_comment, tally_heading. rewrite E.
  destruct (p =? "all")%string; simpl;
    rewrite ?string_append_assoc, ?string_append_nil_r; reflexivity.
Qed.

(** X20: the comment of an averaged tally (surface flux, cell flux,
    energy deposition, fission energy deposition, pulse height) of one
    particle over a non-empty list of cards and groups of cards: the
    title, the tally's name between quotes, the particle in the plural
    (all stays all), then the plural of the card type if the list starts
    with a card, then the elements separated by [; ], a card as its
    quoted name and a group as [avg. in] followed by its quoted names
    separated by [, ], and at the end a full stop, or the mention of the
    average of all when that was asked for. *)
Theorem IAverageTally_comment_of_list (name_of : nat -> string)
  (title card_type p : string) (items : list tally_item) (self : IAverageTally) :
  Tally.particle self = OneParticle p ->
  _cards (IAverageTally_base self) = CardList (map item_arg items) ->
  items <> [] ->
  Tally.IAverageTally_comment name_of title card_type self
  = Ok (tally_heading title
          (Tally.name (ICellSurfTally_base (IAverageTally_base self))) p
        ++ cards_heading card_type items
        ++ String.concat "; " (map (item_text name_of "avg.") items)
        ++ (if _average self then "; and avg. of all provided." else "."))%string.
Proof.
  intros P C NE.
  unfold Tally.IAverageTally_comment, Tally.ICellSurfTally_comment.
  rewrite C. rewrite (ITally_comment_one_particle title p _ P).
  destruct items as [|i items]; [contradiction|].
  change (map item_arg (i :: items)) with (item_arg i :: map item_arg items).
  cbv iota beta.
  change (item_arg i :: map item_arg items) with (map item_arg (i :: items)).
  rewrite cards_loop_join by (rewrite length_map; reflexivity).
  destruct i as [c|cs]; cbn [item_arg cards_heading];
    destruct (_average self); rewrite ?string_append_assoc; reflexivity.
Qed.

Lemma docstring_flux_constructed :
  Tally.SurfaceFlux_init "fuel" (OneParticle "photon")
    (CardList [OneCard 0; OneCard 1; CardList [OneCard 1; OneCard 2]]) true false
  = Return docstring_flux.
Proof. reflexivity. Qed.

Lemma IAverageTally_comment_of_list_witness :
  Tally.SurfaceFlux_comment docstring_names docstring_flux
  = Ok (tally_heading "Surface flux" "fuel" "photon"
        ++ cards_heading "surface" docstring_items
        ++ String.concat "; " (map (item_text docstring_names "avg.") docstring_items)
        ++ "; and avg. of all provided.")%string.
Proof.
  apply (IAverageTally_comment_of_list docstring_names "Surface flux" "surface"
           "photon" docstring_items docstring_flux); [reflexivity|reflexivity|].
  discriminate.
Defined.

Example docstring_flux_comment :
  Tally.SurfaceFlux_comment docstring_names docstring_flux
  = Ok "Surface flux tally 'fuel' of photons: surfaces 'surfA'; 'surfB'; avg. in 'surfB', 'surfC'; and avg. of all provided.".
Proof. reflexivity. Qed.



(** ** The particles of a tally *)

Lemma four_names_test (s : string) :
  negb (s =? "neutron")%string && negb (s =? "photon")%string
  && negb (s =? "electron")%string && negb (s =? "proton")%string = false
  <-> particle_name s.
Proof.
  unfold particle_name.
  destruct (String.eqb_spec s "neutron") as [E1|N1]; simpl; [tauto|].
  destruct (String.eqb_spec s "photon") as [E2|N2]; simpl; [tauto|].
  destruct (String.eqb_spec s "electron") as [E3|N3]; simpl; [tauto|].
  destruct (String.eqb_spec s "proton") as [E4|N4]; simpl; [tauto|].
  split; [discriminate|]. intros [H|[H|[H|H]]]; contradiction.
Qed.

Lemma four_names_dec (s : string) : particle_name s \/ ~ particle_name s.
Proof.
  destruct (negb (s =? "neutron")%string && negb (s =? "photon")%string
            && negb (s =? "electron")%string && negb (s =? "proton")%string) eqn:E.
  - right. intros P. apply four_names_test in P. congruence.
  - left. apply four_names_test. exact E.
Qed.




Lemma energy_loop_spec (l : list string) :
  (Forall particle_name l -> Tally.CellEnergyDeposition_particle_loop l = Return tt) /\
  (~ Forall particle_name l ->
   exists m, Tally.CellEnergyDeposition_particle_loop l = Raise (Exc ValueError m)).
Proof.
  induction l as [|s l [IHok IHbad]]; simpl.
  - split; [reflexivity|]. intros N. destruct N. constructor.
  - destruct (negb (s =? "neutron")%string && negb (s =? "photon")%string
              && negb (s =? "electron")%string && negb (s =? "proton")%string) eqn:E.
    + split.
      * intros F. inversion F as [|? ? P _]. apply four_names_test in P. congruence.
      * intros _. eexists. reflexivity.
    + apply four_names_test in E. split.
      * intros F. apply IHok. inversion F; assumption.
      * intros N. apply IHbad. intros F. apply N. constructor; assumption.
Qed.

Lemma particle_names_dec (l : list string) :
  Forall particle_name l \/ ~ Forall particle_name l.
Proof.
  induction l as [|s l [IH|IH]].
  - left. constructor.
  - destruct (four_names_dec s) as [P|NP].
    + left. constructor; assumption.
    + right. intros F. inversion F; contradiction.
  - right. intros F. inversion F; contradiction.
Qed.

Lemma energy_particle_check_spec (ps p : particle_arg) :
  Tally.CellEnergyDeposition_particle_check ps = Return p <->
  p = ps /\ energy_particles ps.
Proof.
  unfold Tally.CellEnergyDeposition_particle_check, energy_particles.
  destruct ps as [s|l].
  - destruct (negb (s =? "neutron")%string && negb (s =? "photon")%string
              && negb (s =? "electron")%string && negb (s =? "proton")%string) eqn:E;
      simpl.
    + destruct (String.eqb_spec s "all") as [A|NA]; simpl.
      * split; [intros H; injection H as <-; tauto|intros (-> & _); reflexivity].
      * split; [discriminate|]. intros (_ & [P|P]); [|contradiction].
        apply four_names_test in P. congruence.
    + apply four_names_test in E.
      split; [intros H; injection H as <-; tauto|intros (-> & _); reflexivity].
  - destruct (particle_names_dec l) as [F|NF].
    + rewrite (proj1 (energy_loop_spec l) F). simpl.
      split; [intros H; injection H as <-; tauto|intros (-> & _); reflexivity].
    + destruct (proj2 (energy_loop_spec l) NF) as [m E]. rewrite E. simpl.
      split; [discriminate|]. intros (_ & F). contradiction.
Qed.

(** X22: an energy deposition tally is constructed exactly when its
    name is not empty, its particles are one of neutron, photon,
    electron, proton, all, or a list of the first four (the empty list
    among them, and all in a list is rejected), and it is not all
    together with alternative units.  The tally then holds the
    arguments. *)
Theorem CellEnergyDeposition_init_accepts (n : string) (ps : particle_arg)
  (cards : cards_arg) (average alt : bool) :
  ((exists t, Tally.CellEnergyDeposition_init n ps cards average alt = Return t) <->
   (n <> "" /\ energy_particles ps /\ ~ (ps = OneParticle "all" /\ alt = true))) /\
  (forall t,
      Tally.CellEnergyDeposition_init n ps cards average alt = Return t ->
      t = mkIAverageTally (mkICellSurfTally (mkITally (mkICard false n) ps) cards alt)
            average).
Proof.
  assert (K : forall t,
             Tally.CellEnergyDeposition_init n ps cards average alt = Return t <->
             (n <> "" /\ energy_particles ps /\ ~ (ps = OneParticle "all" /\ alt = true)) /\
             t = mkIAverageTally
                   (mkICellSurfTally (mkITally (mkICard false n) ps) cards alt) average).
  { intros t.
    unfold Tally.CellEnergyDeposition_init, Tally.IAverageTally_init,
      Tally.ICellSurfTally_init, Tally.ITally_init.
    destruct (ICard.init n false) as [card|e] eqn:I; cbn [obind].
    2: { split; [discriminate|]. intros ((NE & _) & _).
         assert (R : ICard.init n false = Return (mkICard false n))
           by (apply ICard_init_plain; tauto).
         congruence. }
    apply ICard_init_plain in I. destruct I as [NE ->].
    destruct (Tally.CellEnergyDeposition_particle_check ps) as [p|e] eqn:P; cbn [obind].
    2: { split; [discriminate|]. intros ((_ & Q & _) & _).
         assert (R : Tally.CellEnergyDeposition_particle_check ps = Return ps)
           by (apply energy_particle_check_spec; tauto).
         congruence. }
    apply energy_particle_check_spec in P. destruct P as [-> Q].
    unfold Tally.particle, Tally.alt_units. cbn.
    destruct ps as [s|l]; cbn.
    - destruct (String.eqb_spec s "all") as [A|NA]; cbn.
      + destruct alt; cbn.
        * split; [discriminate|]. intros ((_ & _ & N) & _). destruct N.
          subst s. split; reflexivity.
        * split.
          -- intros H. injection H as <-. repeat split; try assumption.
             intros [_ F]. discriminate.
          -- intros (_ & ->). reflexivity.
      + split.
        * intros H. injection H as <-. repeat split; try assumption.
          intros [F _]. injection F as F. contradiction.
        * intros (_ & ->). reflexivity.
    - split.
      + intros H. injection H as <-. repeat split; try assumption.
        intros [F _]. discriminate.
      + intros (_ & ->). reflexivity. }
  split.
  - split.
    + intros [t H]. apply K in H. tauto.
    + intros H. eexists. apply K. split; [exact H|reflexivity].
  - intros t H. apply K in H. tauto.
Qed.

(** The two calls the docstring gives as not allowed are rejected. *)
Example CellEnergyDeposition_docstring_rejected :
  (exists m,
      Tally.CellEnergyDeposition_init "energy" (ParticleList ["neutron"; "all"])
        (OneCard 0) false false = Raise (Exc ValueError m)) /\
  (exists m,
      Tally.CellEnergyDeposition_init "energy" (OneParticle "all")
        (OneCard 0) false true = Raise (Exc ValueError m)).
Proof. split; eexists; reflexivity. Qed.

Lemma pulse_loop_spec (l : list string) :
  (Forall particle_name l -> Tally.CellPulseHeight_particle_loop l = Return tt) /\
  (~ Forall particle_name l ->
   exists m, Tally.CellPulseHeight_particle_loop l = Raise (Exc ValueError m)).
Proof.
  induction l as [|s l [IHok IHbad]]; simpl.
  - split; [reflexivity|]. intros N. destruct N. constructor.
  - unfold Tally._assert_particle.
    destruct (negb (s =? "neutron")%string && negb (s =? "photon")%string
              && negb (s =? "electron")%string && negb (s =? "proton")%string) eqn:E;
      simpl.
    + split.
      * intros F. inversion F as [|? ? P _]. apply four_names_test in P. congruence.
      * intros _. eexists. reflexivity.
    + apply four_names_test in E. split.
      * intros F. apply IHok. inversion F; assumption.
      * intros N. apply IHbad. intros F. apply N. constructor; assumption.
Qed.

(** X24: a pulse height tally cannot be constructed with its particle
    given as one string: whatever the string, with a valid name the
    constructor raises [UnboundLocalError] in the [particle] setter.
    With a list of particles it is constructed exactly when the name is
    not empty and every element is one of neutron, photon, electron,
    proton, and then holds the arguments; with an empty name it raises
    the [ValueError] of the name before it looks at the particles. *)
Theorem CellPulseHeight_init_accepts (n : string) (cards : cards_arg)
  (average alt : bool) :
  (forall s : string,
      n <> "" ->
      Tally.CellPulseHeight_init n (OneParticle s) cards average alt
      = Fail UnboundLocalError) /\
  (forall l : list string,
      n <> "" -> Forall particle_name l ->
      Tally.CellPulseHeight_init n (ParticleList l) cards average alt
      = Ok (mkIAverageTally
              (mkICellSurfTally (mkITally (mkICard false n) (ParticleList l)) cards alt)
              average)) /\
  (forall l : list string,
      n <> "" -> ~ Forall particle_name l ->
      exists m,
        Tally.CellPulseHeight_init n (ParticleList l) cards average alt
        = Fail (Raised (Exc ValueError m))) /\
  (forall ps : particle_arg,
      n = "" ->
      exists m,
        Tally.CellPulseHeight_init n ps cards average alt
        = Fail (Raised (Exc ValueError m))).
Proof.
  unfold Tally.CellPulseHeight_init.
  split; [|split; [|split]].
  - intros s NE.
    rewrite (proj2 (ICard_init_plain n (mkICard false n)) (conj NE eq_refl)).
    reflexivity.
  - intros l NE F.
    rewrite (proj2 (ICard_init_plain n (mkICard false n)) (conj NE eq_refl)).
    unfold Tally.CellPulseHeight_particle_check.
    rewrite (proj1 (pulse_loop_spec l) F). reflexivity.
  - intros l NE NF.
    rewrite (proj2 (ICard_init_plain n (mkICard false n)) (conj NE eq_refl)).
    unfold Tally.CellPulseHeight_particle_check.
    destruct (proj2 (pulse_loop_spec l) NF) as [m E]. rewrite E.
    exists m. reflexivity.
  - intros ps ->. eexists. reflexivity.
Qed.

Lemma CellPulseHeight_init_accepts_witness :
  Tally.CellPulseHeight_init "fuel" (OneParticle "proton") (OneCard 0) false true
  = Fail UnboundLocalError /\
  Tally.CellPulseHeight_init "fuel" (ParticleList ["proton"; "electron"])
    (CardList [OneCard 0; OneCard 1]) false true
  = Ok (mkIAverageTally
          (mkICellSurfTally
             (mkITally (mkICard false "fuel") (ParticleList ["proton"; "electron"]))
             (CardList [OneCard 0; OneCard 1]) true)
          false).
Proof.
  split.
  - apply (proj1 (CellPulseHeight_init_accepts "fuel" (OneCard 0) false true)).
    discriminate.
  - apply (proj1 (proj2 (CellPulseHeight_init_accepts "fuel"
                           (CardList [OneCard 0; OneCard 1]) false true))).
    + discriminate.
    + constructor; [right; right; right; reflexivity|].
      constructor; [right; right; left; reflexivity|]. constructor.
Defined.

Lemma particle_loop_join (parts : list string) :
  forall (k total : nat) (str : string),
    (k + length parts = total)%nat ->
    Tally.particle_loop total k parts str
    = (str ++ String.concat ", " (map (fun part => part ++ "s") parts))%string.
Proof.
  induction parts as [|part parts IH]; intros k total str L.
  - cbn. rewrite string_append_nil_r. reflexivity.
  - cbn [map Tally.particle_loop].
    destruct parts as [|part' parts].
    + simpl in L.
      assert (F : (S k <? total)%nat = false) by (apply Nat.ltb_ge; lia).
      rewrite F. reflexivity.
    + assert (T : (S k <? total)%nat = true) by (apply Nat.ltb_lt; simpl in L; lia).
      rewrite T. rewrite IH by (simpl in *; lia).
      cbn [map]. rewrite concat_cons2, !string_append_assoc. reflexivity.
Qed.

(** X25: the head of the comment of a tally of several particles: the
    title, the tally's name between quotes, and the particles, each in
    the plural, separated by [, ] (nothing for the empty list), then a
    colon. *)
Theorem ITally_comment_particle_list (title : string) (l : list string) (self : ITally) :
  _particle self = ParticleList l ->
  Tally.ITally_comment title self
  = (title ++ " tally '" ++ Tally.name self ++ "' of "
     ++ String.concat ", " (map (fun part => part ++ "s") l) ++ ": ")%string.
Proof.
  intros E. unfold Tally.ITally_comment. rewrite E.
  rewrite particle_loop_join by reflexivity.
  rewrite !string_append_assoc. reflexivity.
Qed.

Lemma ITally_comment_particle_list_witness :
  Tally.ITally_comment "Energy deposition"
    (mkITally (mkICard false "energy") (ParticleList ["neutron"; "proton"]))
  = "Energy deposition tally 'energy' of neutrons, protons: ".
Proof.
  apply (ITally_comment_particle_list "Energy deposition" ["neutron"; "proton"]
           (mkITally (mkICard false "energy") (ParticleList ["neutron"; "proton"]))).
  reflexivity.
Defined.

(** ** Void cells for MCNP *)



